(** * lamblayer: the [create] workflow

    A shallow embedding of [lamblayer/create.py] and of the exception
    classes of [lamblayer/exceptions.py].

    The Python methods become functions in a small state-and-exception
    monad over a [world]: the file tree, the number of HTTP requests
    issued so far and the trace of observable events (log records,
    file-system operations, HTTP requests, sleeps, publish calls).
    Everything the program obtains from outside (the text of the
    configuration files, the HTTP responses, the answer of the publish
    API, the zip encoder, the time-stamp hash, disk faults) is read from
    an immutable [env]. *)

From Stdlib Require Import List String Ascii ZArith Lia Bool Arith.
From Stdlib Require Import DecimalString.
Import ListNotations.

Set Warnings "-register-all".

Local Open Scope string_scope.
Local Open Scope list_scope.
Local Open Scope Z_scope.

(** ** Python values *)

(** What [json.load] can return, which is also every value the workflow
    passes around.  A float keeps its literal text: the program never
    computes with one. *)
Inductive value : Type :=
| VNone
| VBool (b : bool)
| VInt (n : Z)
| VFloat (literal : string)
| VStr (s : string)
| VList (xs : list value)
| VDict (kvs : list (string * value)).

(** A command-line option is [None] or a [str]. *)
Definition of_opt (o : option string) : value :=
  match o with
  | None => VNone
  | Some s => VStr s
  end.

(** Truth value of an option as [if packages and src] tests it: [None]
    and the empty string are false. *)
Definition truthy (o : option string) : bool :=
  match o with
  | None => false
  | Some EmptyString => false
  | Some (String _ _) => true
  end.

(** [isinstance(v, str)]. *)
Definition is_str (v : value) : bool :=
  match v with VStr _ => true | _ => false end.

(** [isinstance(v, (str, list))]. *)
Definition is_str_or_list (v : value) : bool :=
  match v with VStr _ | VList _ => true | _ => false end.

(** [isinstance(v, int)]: [bool] is a subclass of [int]. *)
Definition is_int (v : value) : bool :=
  match v with VInt _ | VBool _ => true | _ => false end.

(** ** Exceptions *)

(** Exceptions of the interpreter and of the libraries the workflow
    calls; none of them is caught anywhere in [create.py]. *)
Inductive py_error : Type :=
| TypeError
| ValueError
| AttributeError
| FileNotFoundError
| FileExistsError
| NotADirectoryError
| OSError
| JSONDecodeError
| ShutilError
| RequestException
| ClientError.

(** The classes [isinstance] is asked about; a tuple of classes is the
    list of them. *)
Inductive py_type : Type :=
| T_str
| T_list
| T_int.

(** [exceptions.py]: every class stores one [message]. *)
Inductive exn : Type :=
| LamblayerInvalidRegionError (message : string)
| LamblayerInvalidOptionError (message : string)
| LamblayerParamValidationError (message : string)
| LamblayerCreateLayerError (message : string)
| PyError (e : py_error).

(** [LamblayerParamValidationError.__init__]: the assignment to
    [message] ends with its first line; the two f-strings below it are
    expression statements of their own, evaluated and dropped. *)
Definition param_validation_message
  (param_name : string) (param_value : value) (valid_type : list py_type)
  : string :=
  ("ParamValidationError: Parameter validation failed:" ++ String "010" "")%string.

(** [LamblayerParamValidationError(param_name, param_value, valid_type)]. *)
Definition ParamValidationError
  (param_name : string) (param_value : value) (valid_type : list py_type)
  : exn :=
  LamblayerParamValidationError
    (param_validation_message param_name param_value valid_type).

(** ** Strings as Python handles them *)

Fixpoint starts_with (p s : string) : bool :=
  match p, s with
  | EmptyString, _ => true
  | String a p', String b s' => Ascii.eqb a b && starts_with p' s'
  | String _ _, EmptyString => false
  end.

Fixpoint ends_with_char (c : ascii) (s : string) : bool :=
  match s with
  | EmptyString => false
  | String a EmptyString => Ascii.eqb a c
  | String _ s' => ends_with_char c s'
  end.

(** [needle in s]. *)
Fixpoint contains (needle s : string) : bool :=
  starts_with needle s ||
  match s with
  | EmptyString => false
  | String _ s' => contains needle s'
  end.

(** [sep.join(xs)] for strings. *)
Fixpoint str_join (sep : string) (xs : list string) : string :=
  match xs with
  | [] => ""
  | [x] => x
  | x :: rest => (x ++ sep ++ str_join sep rest)%string
  end.

(** [s.split(sep, maxsplit)]: scan left to right, cut at every
    occurrence of [sep] that does not overlap the previous one, at most
    [maxsplit] times ([None] for no limit).  [skip] counts the characters
    of a separator still to be passed over, [cur] is the piece being
    read.  [sep] is not empty. *)
Fixpoint split_go (sep : string) (maxsplit : option nat) (skip : nat)
  (cur s : string) : list string :=
  match s with
  | EmptyString => [cur]
  | String c s' =>
    match skip with
    | S k => split_go sep maxsplit k cur s'
    | O =>
      match maxsplit with
      | Some O => [(cur ++ s)%string]
      | _ =>
        if starts_with sep s
        then cur :: split_go sep (option_map Nat.pred maxsplit)
                      (Nat.pred (String.length sep)) "" s'
        else split_go sep maxsplit O (cur ++ String c "")%string s'
      end
    end
  end.

Definition py_split (s sep : string) : list string :=
  split_go sep None O "" s.

Definition py_splitn (s sep : string) (maxsplit : nat) : list string :=
  split_go sep (Some maxsplit) O "" s.

(** [xs[0]] and [xs[-1]] of a list [split] returned, which is never
    empty. *)
Definition first_item (xs : list string) : string := hd "" xs.
Definition last_item (xs : list string) : string := last xs "".

(** [str(n)] for an [int]. *)
Definition str_of_Z (n : Z) : string := NilZero.string_of_int (Z.to_int n).

(** The instances of [int]: integers and the two booleans. *)
Inductive int_obj : Type :=
| IInt (n : Z)
| IBool (b : bool).

Definition as_int (v : value) : option int_obj :=
  match v with
  | VInt n => Some (IInt n)
  | VBool b => Some (IBool b)
  | _ => None
  end.

Definition int_value (i : int_obj) : value :=
  match i with
  | IInt n => VInt n
  | IBool b => VBool b
  end.

(** [f"{i}"]. *)
Definition format_int (i : int_obj) : string :=
  match i with
  | IInt n => str_of_Z n
  | IBool true => "True"
  | IBool false => "False"
  end.

(** [int(s)] for a [str] of ASCII characters, base ten: white space
    around the number is dropped, one sign is allowed, and single
    underscores may separate digits. *)
Definition is_space (c : ascii) : bool :=
  match c with
  | " "%char | "009"%char | "010"%char | "011"%char | "012"%char
  | "013"%char | "028"%char | "029"%char | "030"%char | "031"%char => true
  | _ => false
  end.

Fixpoint lstrip (s : string) : string :=
  match s with
  | String c s' => if is_space c then lstrip s' else s
  | EmptyString => s
  end.

Definition digit_of (c : ascii) : option Z :=
  let n := Z.of_nat (nat_of_ascii c) in
  if (48 <=? n) && (n <=? 57) then Some (n - 48) else None.

(** Digits after the first one; [sep] says the previous character was
    an underscore, so that a digit has to follow.  White space ends the
    number and only white space may follow it. *)
Fixpoint all_space (s : string) : bool :=
  match s with
  | EmptyString => true
  | String c s' => is_space c && all_space s'
  end.

Fixpoint digits_go (acc : Z) (sep : bool) (s : string) : option Z :=
  match s with
  | EmptyString => if sep then None else Some acc
  | String c s' =>
    match digit_of c with
    | Some d => digits_go (10 * acc + d) false s'
    | None =>
      if Ascii.eqb c "_" then
        if sep then None else digits_go acc true s'
      else if is_space c && negb sep && all_space s' then Some acc
      else None
    end
  end.

Definition unsigned_int (s : string) : option Z :=
  match s with
  | EmptyString => None
  | String c s' =>
    match digit_of c with
    | Some d => digits_go d false s'
    | None => None
    end
  end.

Definition int_of_str (s : string) : option Z :=
  match lstrip s with
  | String "-" s' => option_map Z.opp (unsigned_int s')
  | String "+" s' => unsigned_int s'
  | s' => unsigned_int s'
  end.

(** [posixpath.join(a, *p)]. *)
Definition join2 (path b : string) : string :=
  if starts_with "/" b then b
  else if (path =? "")%string || ends_with_char "/" path then (path ++ b)%string
  else (path ++ "/" ++ b)%string.

Definition os_path_join (a : string) (p : list string) : string :=
  fold_left join2 p a.


(** ** The environment and the world *)

(** An HTTP response as the workflow reads it: [status_code], [text]
    and [headers]. *)
Record response : Type := {
  status_code : Z;
  text : string;
  headers : list (string * string)
}.

Definition ascii_lower (c : ascii) : ascii :=
  let n := nat_of_ascii c in
  if (65 <=? n)%nat && (n <=? 90)%nat then ascii_of_nat (n + 32) else c.

Fixpoint lower (s : string) : string :=
  match s with
  | EmptyString => EmptyString
  | String c s' => String (ascii_lower c) (lower s')
  end.

(** [response.headers.get(name)]: the headers of [requests] are a
    case-insensitive dictionary. *)
Fixpoint headers_get (hs : list (string * string)) (name : string)
  : option string :=
  match hs with
  | [] => None
  | (k, v) :: rest =>
    if (lower k =? lower name)%string then Some v else headers_get rest name
  end.

(** [requests.get(url)] answers or raises. *)
Inductive http_result : Type :=
| Answer (r : response)
| NoAnswer.

(** [json.load(open(path))]. *)
Inductive config_read : Type :=
| NoSuchFile
| NotJson
| Parsed (v : value).

(** A path is the list of its components below the root. *)
Definition path : Type := list string.

(** A node of the file tree.  A file is readable or not, and has its
    bytes. *)
Inductive node : Type :=
| NDir
| NFile (readable : bool) (data : list Byte.byte).

(** The file tree: each existing path with its node; the root always
    exists. *)
Definition fs : Type := list (path * node).

(** A member of a zip archive: its name, and its bytes unless it is a
    directory entry. *)
Definition zip_member : Type := (string * option (list Byte.byte))%type.

(** The argument of [publish_layer_version]'s [Content]. *)
Inductive content : Type :=
| ZipFile (zipfile : list Byte.byte)
| S3 (S3Bucket S3Key : string).

Record publish_request : Type := {
  LayerName : value;
  Description : value;
  Content : content;
  CompatibleRuntimes : value;
  LicenseInfo : value
}.

(** The library calls that touch the disk and may fail for reasons the
    file tree does not show (a full disk, a lost mount). *)
Inductive fs_op : Type :=
| OpCopytree
| OpMakeArchive
| OpRead
| OpRmtree.

Record env : Type := {
  (** [hashlib.md5(str(time.time()).encode()).hexdigest()] *)
  env_timestamp_hash : string;
  (** the working directory of the process *)
  env_cwd : path;
  (** the configuration files *)
  env_config : string -> config_read;
  (** the answer to the n-th [requests.get] of the run *)
  env_http : nat -> string -> http_result;
  (** [response["LayerVersionArn"]] of the publish call, or its failure *)
  env_publish : publish_request -> option string;
  (** the zip encoder *)
  env_zip : list zip_member -> list Byte.byte;
  (** which disk operations fail *)
  env_fault : fs_op -> bool
}.

Inductive level : Type :=
| DEBUG
| INFO.

(** An f-string: literal text and formatted values. *)
Inductive fpart : Type :=
| Lit (s : string)
| Fmt (v : value).

Inductive event : Type :=
| EvLog (lvl : level) (msg : list fpart)
| EvOpen (file : string)
| EvCopytree (src dst : string)
| EvMakeArchive (base_name root_dir : string)
| EvRead (file : string)
| EvRmtree (dir : string)
| EvGet (url : string)
| EvSleep (seconds : Z)
| EvPublish (req : publish_request).

Record world : Type := {
  w_fs : fs;
  w_requests : nat;
  w_trace : list event
}.

(** ** The monad *)

(** A computation returns, raises, or is still running when the fuel
    given to the polling loop is used up. *)
Inductive outcome (A : Type) : Type :=
| Ret (a : A)
| Raise (e : exn)
| OutOfFuel.

Arguments Ret {A} a.
Arguments Raise {A} e.
Arguments OutOfFuel {A}.

Definition M (A : Type) : Type := world -> outcome A * world.

Definition ret {A} (a : A) : M A := fun w => (Ret a, w).

Definition raise {A} (e : exn) : M A := fun w => (Raise e, w).

Definition bind {A B} (m : M A) (k : A -> M B) : M B :=
  fun w =>
    match m w with
    | (Ret a, w') => k a w'
    | (Raise e, w') => (Raise e, w')
    | (OutOfFuel, w') => (OutOfFuel, w')
    end.

Notation "x <- m ;; k" := (bind m (fun x => k))
  (at level 61, m at next level, right associativity).
Notation "m ;;; k" := (bind m (fun _ => k))
  (at level 61, right associativity).

Definition emit (e : event) : M unit :=
  fun w => (Ret tt, {| w_fs := w_fs w;
                       w_requests := w_requests w;
                       w_trace := w_trace w ++ [e] |}).

Definition log (lvl : level) (msg : list fpart) : M unit :=
  emit (EvLog lvl msg).

Definition set_fs (f : fs) : M unit :=
  fun w => (Ret tt, {| w_fs := f;
                       w_requests := w_requests w;
                       w_trace := w_trace w |}).

Definition get_fs : M fs := fun w => (Ret (w_fs w), w).

(** ** Paths and the file tree *)

(** The components of a path string, cut at every slash. *)
Fixpoint segments_go (cur s : string) : list string :=
  match s with
  | EmptyString => [cur]
  | String c s' =>
    if Ascii.eqb c "/" then cur :: segments_go "" s'
    else segments_go (cur ++ String c "")%string s'
  end.

Definition segments (s : string) : list string := segments_go "" s.

(** One component from [dir]: an empty one and [.] stay where they
    are, [..] goes up, a name goes down. *)
Definition step (dir : path) (seg : string) : path :=
  if (seg =? "")%string || (seg =? ".")%string then dir
  else if (seg =? "..")%string then removelast dir
  else dir ++ [seg].

Definition walk (dir : path) (segs : list string) : path :=
  fold_left step segs dir.

(** The path a string names for a process whose working directory is
    [cwd], in a tree without symbolic links.  The string is read
    component by component, which is how the system reads it when every
    directory it passes through exists. *)
Definition resolve (cwd : path) (s : string) : path :=
  walk (if starts_with "/" s then [] else cwd) (segments s).

Fixpoint path_eqb (p q : path) : bool :=
  match p, q with
  | [], [] => true
  | a :: p', b :: q' => (a =? b)%string && path_eqb p' q'
  | _, _ => false
  end.

(** [strip_prefix p q] is what remains of [q] below [p]. *)
Fixpoint strip_prefix (p q : path) : option path :=
  match p, q with
  | [], _ => Some q
  | a :: p', b :: q' => if (a =? b)%string then strip_prefix p' q' else None
  | _ :: _, [] => None
  end.

Definition is_below (p q : path) : bool :=
  match strip_prefix p q with
  | Some _ => true
  | None => false
  end.

Fixpoint fs_find (f : fs) (p : path) : option node :=
  match f with
  | [] => None
  | (q, n) :: rest => if path_eqb q p then Some n else fs_find rest p
  end.

Definition fs_lookup (f : fs) (p : path) : option node :=
  match p with
  | [] => Some NDir
  | _ => fs_find f p
  end.

(** The nodes strictly below [root], each with its path relative to
    [root]. *)
Fixpoint below (root : path) (f : fs) : list (path * node) :=
  match f with
  | [] => []
  | (q, n) :: rest =>
    match strip_prefix root q with
    | Some (x :: r) => (x :: r, n) :: below root rest
    | _ => below root rest
    end
  end.

(** [root] and everything below it, removed. *)
Fixpoint remove_tree (root : path) (f : fs) : fs :=
  match f with
  | [] => []
  | (q, n) :: rest =>
    if is_below root q then remove_tree root rest
    else (q, n) :: remove_tree root rest
  end.

(** The tree without the node at [p]. *)
Fixpoint fs_drop (p : path) (f : fs) : fs :=
  match f with
  | [] => []
  | (q, n) :: rest =>
    if path_eqb q p then fs_drop p rest else (q, n) :: fs_drop p rest
  end.

(** Write a file, replacing the node the path had. *)
Definition fs_write (f : fs) (p : path) (data : list Byte.byte) : fs :=
  fs_drop p f ++ [(p, NFile true data)].

(** [os.mkdir]: the path must be new and its parent a directory. *)
Definition mkdir (f : fs) (p : path) : fs + py_error :=
  match fs_lookup f p with
  | Some _ => inr FileExistsError
  | None =>
    match fs_lookup f (removelast p) with
    | Some NDir => inl (f ++ [(p, NDir)])
    | Some (NFile _ _) => inr NotADirectoryError
    | None => inr FileNotFoundError
    end
  end.

(** [os.makedirs(name)] with [exist_ok] false: the ancestors that do
    not exist are made, from the top down, then [name] itself, which
    must be new.  What was made before a failure stays. *)
Fixpoint makedirs_go (f : fs) (parent : path) (rest : list string)
  : fs * option py_error :=
  match rest with
  | [] => (f, Some FileExistsError)
  | [x] =>
    match mkdir f (parent ++ [x]) with
    | inl f' => (f', None)
    | inr err => (f, Some err)
    end
  | x :: rest' =>
    let p := parent ++ [x] in
    match fs_lookup f p with
    | Some _ => makedirs_go f p rest'
    | None =>
      match mkdir f p with
      | inl f' => makedirs_go f' p rest'
      | inr err => (f, Some err)
      end
    end
  end.

Definition makedirs (f : fs) (p : path) : fs * option py_error :=
  makedirs_go f [] p.

(** Can the node be copied or archived: a file has to be readable. *)
Definition readable_node (entry : path * node) : bool :=
  match snd entry with
  | NDir => true
  | NFile r _ => r
  end.

(** The nodes [copytree] creates below [dst]; a file that cannot be
    read leaves nothing. *)
Fixpoint copies (dst : path) (entries : list (path * node)) : fs :=
  match entries with
  | [] => []
  | (r, NDir) :: rest => (dst ++ r, NDir) :: copies dst rest
  | (r, NFile true data) :: rest =>
    (dst ++ r, NFile true data) :: copies dst rest
  | (r, NFile false _) :: rest => copies dst rest
  end.

(** [shutil.copytree(src, dst)]: list [src], make [dst], copy what can
    be copied, and raise at the end if something could not. *)
Definition copytree (e : env) (src dst : string) : M unit :=
  emit (EvCopytree src dst) ;;;
  f <- get_fs ;;
  match fs_lookup f (resolve (env_cwd e) src) with
  | None => raise (PyError FileNotFoundError)
  | Some (NFile _ _) => raise (PyError NotADirectoryError)
  | Some NDir =>
    let entries := below (resolve (env_cwd e) src) f in
    match makedirs f (resolve (env_cwd e) dst) with
    | (f1, Some err) => set_fs f1 ;;; raise (PyError err)
    | (f1, None) =>
      if env_fault e OpCopytree
      then set_fs f1 ;;; raise (PyError ShutilError)
      else
        set_fs (f1 ++ copies (resolve (env_cwd e) dst) entries) ;;;
        if forallb readable_node entries then ret tt
        else raise (PyError ShutilError)
    end
  end.

(** The name of a node inside the archive. *)
Definition member_of (entry : path * node) : zip_member :=
  match snd entry with
  | NDir => ((str_join "/" (fst entry) ++ "/")%string, None)
  | NFile _ data => (str_join "/" (fst entry), Some data)
  end.

(** [shutil.make_archive(base_name, "zip", root_dir=root_dir)]: every
    node below [root_dir], named by its path relative to it, written to
    [base_name + ".zip"]. *)
Definition make_archive (e : env) (base_name root_dir : string) : M unit :=
  emit (EvMakeArchive base_name root_dir) ;;;
  f <- get_fs ;;
  match fs_lookup f (resolve (env_cwd e) root_dir) with
  | None => raise (PyError FileNotFoundError)
  | Some (NFile _ _) => raise (PyError NotADirectoryError)
  | Some NDir =>
    let entries := below (resolve (env_cwd e) root_dir) f in
    if env_fault e OpMakeArchive || negb (forallb readable_node entries)
    then raise (PyError OSError)
    else set_fs (fs_write f (resolve (env_cwd e) (base_name ++ ".zip")%string)
                   (env_zip e (map member_of entries)))
  end.

(** [open(file, "rb").read()]. *)
Definition read_bytes (e : env) (file : string) : M (list Byte.byte) :=
  emit (EvRead file) ;;;
  f <- get_fs ;;
  match fs_lookup f (resolve (env_cwd e) file) with
  | None => raise (PyError FileNotFoundError)
  | Some NDir => raise (PyError OSError)
  | Some (NFile false _) => raise (PyError OSError)
  | Some (NFile true data) =>
    if env_fault e OpRead then raise (PyError OSError) else ret data
  end.

(** [shutil.rmtree(dir)]. *)
Definition rmtree (e : env) (dir : string) : M unit :=
  emit (EvRmtree dir) ;;;
  f <- get_fs ;;
  match fs_lookup f (resolve (env_cwd e) dir) with
  | None => raise (PyError FileNotFoundError)
  | Some (NFile _ _) => raise (PyError NotADirectoryError)
  | Some NDir =>
    if env_fault e OpRmtree then raise (PyError OSError)
    else set_fs (remove_tree (resolve (env_cwd e) dir) f)
  end.

(** [sys.getsizeof] of a [bytes] object. *)
Definition sys_getsizeof (b : list Byte.byte) : Z := 33 + Z.of_nat (List.length b).

(** ** Library calls *)

(** [json.load(open(file, "r"))]. *)
Definition json_load (e : env) (file : string) : M value :=
  emit (EvOpen file) ;;;
  match env_config e file with
  | NoSuchFile => raise (PyError FileNotFoundError)
  | NotJson => raise (PyError JSONDecodeError)
  | Parsed v => ret v
  end.

Fixpoint dict_get (kvs : list (string * value)) (key : string)
  : option value :=
  match kvs with
  | [] => None
  | (k, v) :: rest => if (k =? key)%string then Some v else dict_get rest key
  end.

Definition dict_get_or (kvs : list (string * value)) (key : string)
  (default : value) : value :=
  match dict_get kvs key with
  | Some v => v
  | None => default
  end.

(** [d.get(key, default)]; only a [dict] has the method. *)
Definition py_get (d : value) (key : string) (default : value) : M value :=
  match d with
  | VDict kvs => ret (dict_get_or kvs key default)
  | _ => raise (PyError AttributeError)
  end.

(** The strings of a list, if all its items are strings. *)
Fixpoint strs_of (xs : list value) : option (list string) :=
  match xs with
  | [] => Some []
  | VStr s :: rest => option_map (cons s) (strs_of rest)
  | _ :: _ => None
  end.

(** ["&".join(xs)]: an item that is not a [str] is a [TypeError]. *)
Definition amp_join (xs : list value) : M string :=
  match strs_of xs with
  | Some ss => ret (str_join "&" ss)
  | None => raise (PyError TypeError)
  end.

(** [requests.get(url)]. *)
Definition requests_get (e : env) (url : string) : M response :=
  fun w =>
    let w' := {| w_fs := w_fs w;
                 w_requests := S (w_requests w);
                 w_trace := w_trace w ++ [EvGet url] |} in
    match env_http e (w_requests w) url with
    | Answer r => (Ret r, w')
    | NoAnswer => (Raise (PyError RequestException), w')
    end.

(** [self.session.client("lambda").publish_layer_version(...)]
    followed by [response["LayerVersionArn"]]. *)
Definition publish_layer_version (e : env) (req : publish_request)
  : M string :=
  emit (EvPublish req) ;;;
  match env_publish e req with
  | Some arn => ret arn
  | None => raise (PyError ClientError)
  end.

(** ** [create.py] *)

(** [Create._parse_create_layer_json]. *)
Definition _parse_create_layer_json (e : env) (layer_path : string)
  : M (value * value * value * value) :=
  layer_param <- json_load e layer_path ;;
  layer_name <- py_get layer_param "LayerName" VNone ;;
  description <- py_get layer_param "Description" VNone ;;
  compatible_runtimes <- py_get layer_param "CompatibleRuntimes" VNone ;;
  license_info <- py_get layer_param "LicenseInfo" VNone ;;
  ret (layer_name, description, compatible_runtimes, license_info).

(** [Create._parse_packages_json]. *)
Definition _parse_packages_json (e : env) (packages_path : string)
  : M (string * string * string * int_obj) :=
  packages_config <- json_load e packages_path ;;
  arch <- py_get packages_config "Arch" VNone ;;
  runtime <- py_get packages_config "Runtime" VNone ;;
  packages <- py_get packages_config "Packages" VNone ;;
  no_deps <- py_get packages_config "No_deps" (VInt 0) ;;
  match arch with
  | VStr arch_s =>
    match runtime with
    | VStr runtime_s =>
      if negb (is_str_or_list packages)
      then raise (ParamValidationError "Packages" packages [T_str; T_list])
      else
        match as_int no_deps with
        | None => raise (ParamValidationError "No_deps" no_deps [T_int])
        | Some no_deps_i =>
          (* [packages] is a [list] or a [str] here *)
          packages_s <- match packages with
                        | VList xs => amp_join xs
                        | VStr s => ret s
                        | _ => raise (PyError TypeError)
                        end ;;
          ret (arch_s, runtime_s, packages_s, no_deps_i)
        end
    | _ => raise (ParamValidationError "Runtime" runtime [T_str])
    end
  | _ => raise (ParamValidationError "Arch" arch [T_str])
  end.

(** [Create._create_ziparchive]. *)
Definition _create_ziparchive (e : env) (src wrap_dir1 wrap_dir2 : string)
  : M (list Byte.byte) :=
  let temp_dir := env_timestamp_hash e in
  let temp_layer_dir := os_path_join temp_dir ["rawlayer"] in
  let copy_src_dir :=
    os_path_join temp_dir ["rawlayer"; wrap_dir1; wrap_dir2] in
  copytree e src copy_src_dir ;;;
  let base_name := os_path_join temp_dir ["ziplayer"] in
  make_archive e base_name temp_layer_dir ;;;
  let output_path := (base_name ++ ".zip")%string in
  zipfile <- read_bytes e output_path ;;
  rmtree e temp_dir ;;;
  log INFO [Lit "zip archive wrote "; Fmt (VInt (sys_getsizeof zipfile));
            Lit " bytes"] ;;;
  ret zipfile.

(** [create], under [# create layer], in both branches. *)
Definition create_layer (e : env)
  (layer_name description compatible_runtimes license_info : value)
  (content : content) : M unit :=
  log INFO [Lit "creating layer"] ;;;
  layer_version_arn <-
    publish_layer_version e
      {| LayerName := layer_name;
         Description := description;
         Content := content;
         CompatibleRuntimes := compatible_runtimes;
         LicenseInfo := license_info |} ;;
  log INFO [Lit "created "; Fmt (VStr layer_version_arn)].

(** [create], the branch [if src:]. *)
Definition create_from_src (e : env)
  (layer_name description compatible_runtimes license_info : value)
  (src wrap_dir1 wrap_dir2 : string) : M unit :=
  log INFO [Lit "creating zip archive from "; Fmt (VStr src)] ;;;
  zipfile <- _create_ziparchive e src wrap_dir1 wrap_dir2 ;;
  create_layer e layer_name description compatible_runtimes license_info
    (ZipFile zipfile).

(** The URL of the build service. *)
Definition build_url (arch runtime packages : string) (no_deps : int_obj)
  : string :=
  ("https://layerzip.higuchi.work/" ++ arch ++ "/" ++ runtime ++ "/"
     ++ packages ++ "?no-deps=" ++ format_int no_deps)%string.

(** [create], under [# get pre_signedurl]. *)
Definition get_pre_signedurl (e : env) (url : string) : M string :=
  response <- requests_get e url ;;
  if (200 <=? status_code response) && (status_code response <? 300)
  then
    log DEBUG [Lit "pre_signedurl: "; Fmt (VStr (text response))] ;;;
    ret (text response)
  else
    raise (LamblayerCreateLayerError
      "Something went wrong..., Please contact with higuchi@adansons.co.jp").

(** [create], under [# wait for downloading packages]: the [while]
    loop; each unit of fuel is one turn of it. *)
Fixpoint wait_for_download (fuel : nat) (e : env) (pre_signedurl : string)
  (elapsed_time : Z) : M response :=
  match fuel with
  | O => fun w => (OutOfFuel, w)
  | S fuel' =>
    response <- requests_get e pre_signedurl ;;
    if status_code response =? 200 then ret response
    else
      emit (EvSleep 5) ;;;
      log INFO [Lit "still downloading packages... ";
                Fmt (VInt (elapsed_time + 5)); Lit "s elapsed"] ;;;
      wait_for_download fuel' e pre_signedurl (elapsed_time + 5)
  end.

(** [int(x)] where [x] is [None] or a [str]. *)
Definition py_int (x : option string) : M Z :=
  match x with
  | None => raise (PyError TypeError)
  | Some s =>
    match int_of_str s with
    | Some n => ret n
    | None => raise (PyError ValueError)
    end
  end.

(** [create], under [# verify put correctly]. *)
Definition verify_put (response : response) : M unit :=
  let content_length := headers_get (headers response) "Content-Length" in
  n <- py_int content_length ;;
  if n <? 200
  then raise (LamblayerCreateLayerError
    "Something went wrong..., Please check the pakcage name and version again.")
  else ret tt.

Definition s3_bucket (pre_signedurl : string) : string :=
  last_item (py_split (first_item (py_split pre_signedurl ".")) "//").

Definition s3_key (pre_signedurl : string) : string :=
  last_item (py_splitn pre_signedurl "/" 3).

(** [create], the branch [if packages:] from the request to the build
    service on. *)
Definition fetch_and_publish (fuel : nat) (e : env)
  (layer_name description compatible_runtimes license_info : value)
  (url : string) : M unit :=
  pre_signedurl <- get_pre_signedurl e url ;;
  response <- wait_for_download fuel e pre_signedurl 0 ;;
  verify_put response ;;;
  create_layer e layer_name description compatible_runtimes license_info
    (S3 (s3_bucket pre_signedurl) (s3_key pre_signedurl)).

(** [create], the branch [if packages:]. *)
Definition create_from_packages (fuel : nat) (e : env)
  (layer_name description compatible_runtimes license_info : value)
  (packages : string) : M unit :=
  log INFO [Lit "creating zip archive"] ;;;
  parsed <- _parse_packages_json e packages ;;
  let '(arch, runtime, packages, no_deps) := parsed in
  log DEBUG [Lit "arch: "; Fmt (VStr arch)] ;;;
  log DEBUG [Lit "runtime: "; Fmt (VStr runtime)] ;;;
  log DEBUG [Lit "packages: "; Fmt (VStr packages)] ;;;
  log DEBUG [Lit "no_deps: "; Fmt (int_value no_deps)] ;;;
  fetch_and_publish fuel e layer_name description compatible_runtimes
    license_info (build_url arch runtime packages no_deps).

(** The body of [if option:], run when the option is set. *)
Definition if_set (option : option string) (body : string -> M unit)
  : M unit :=
  match option with
  | Some s => if truthy option then body s else ret tt
  | None => ret tt
  end.

(** [Create.create]. *)
Definition create (fuel : nat) (e : env) (packages src : option string)
  (wrap_dir1 wrap_dir2 layer_path : string) : M unit :=
  log DEBUG [Lit "packages: "; Fmt (of_opt packages)] ;;;
  log DEBUG [Lit "src: "; Fmt (of_opt src)] ;;;
  log DEBUG [Lit "layer: "; Fmt (VStr layer_path)] ;;;
  (if truthy packages && truthy src
   then raise (LamblayerInvalidOptionError
     "`--packages` and `--src` cannot be specified at the same time.")
   else if negb (truthy packages) && negb (truthy src)
   then raise (LamblayerInvalidOptionError
     "either `--packages` or `--src` must be specified.")
   else ret tt) ;;;
  layer <- _parse_create_layer_json e layer_path ;;
  let '(layer_name, description, compatible_runtimes, license_info) :=
    layer in
  log INFO [Lit "starting create layer "; Fmt layer_name] ;;;
  log DEBUG [Lit "layer_name: "; Fmt layer_name] ;;;
  log DEBUG [Lit "description: "; Fmt description] ;;;
  log DEBUG [Lit "compatible_runtimes: "; Fmt compatible_runtimes] ;;;
  log DEBUG [Lit "license_info: "; Fmt license_info] ;;;
  if_set src (fun src =>
    create_from_src e layer_name description compatible_runtimes
      license_info src wrap_dir1 wrap_dir2) ;;;
  if_set packages (fun packages =>
    create_from_packages fuel e layer_name description compatible_runtimes
      license_info packages).

(** [Create.__call__]. *)
Definition __call__ (fuel : nat) (e : env) (packages src : option string)
  (wrap_dir1 wrap_dir2 layer_path : string) : M unit :=
  create fuel e packages src wrap_dir1 wrap_dir2 layer_path.

(** ** [setup.py] *)

(** The part of Python's [re] that [VERSION_RE] needs.  A pattern is a
    sequence of items: a literal character, a character class, or a
    class repeated one or more times.  The repetition is greedy and
    gives characters back when the rest of the pattern fails.  A match
    is the list of the pieces of text the items consumed, in order. *)
Inductive re_item : Type :=
| RLit (c : ascii)
| RClass (p : ascii -> bool)
| RPlus (p : ascii -> bool).

(** [RPlus p] followed by the rest of the pattern, [k]: the longest run
    first, then shorter ones. *)
Fixpoint plus_go (p : ascii -> bool) (k : string -> option (list string))
  (s : string) : option (string * list string) :=
  match s with
  | EmptyString => None
  | String c s' =>
    if p c then
      match plus_go p k s' with
      | Some (more, pieces) => Some (String c more, pieces)
      | None =>
        match k s' with
        | Some pieces => Some (String c EmptyString, pieces)
        | None => None
        end
      end
    else None
  end.

(** A match that starts at the first character of [s]. *)
Fixpoint match_here (its : list re_item) (s : string) : option (list string) :=
  match its with
  | [] => Some []
  | RLit c :: rest =>
    match s with
    | String a s' =>
      if Ascii.eqb a c
      then option_map (cons (String a EmptyString)) (match_here rest s')
      else None
    | EmptyString => None
    end
  | RClass p :: rest =>
    match s with
    | String a s' =>
      if p a
      then option_map (cons (String a EmptyString)) (match_here rest s')
      else None
    | EmptyString => None
    end
  | RPlus p :: rest =>
    match plus_go p (match_here rest) s with
    | Some (piece, pieces) => Some (piece :: pieces)
    | None => None
    end
  end.

(** [pattern.search(s)]: the match at the leftmost position that has
    one, [None] when no position has. *)
Fixpoint search (its : list re_item) (s : string) : option (list string) :=
  match match_here its s with
  | Some m => Some m
  | None =>
    match s with
    | EmptyString => None
    | String _ s' => search its s'
    end
  end.

Fixpoint lits (s : string) : list re_item :=
  match s with
  | EmptyString => []
  | String c s' => RLit c :: lits s'
  end.

(** The class of the two quote characters, single and double. *)
Definition is_quote (c : ascii) : bool :=
  Ascii.eqb c "'" || Ascii.eqb c "034".

(** The class [0-9.]. *)
Definition is_digit_or_dot (c : ascii) : bool :=
  ((48 <=? nat_of_ascii c)%nat && (nat_of_ascii c <=? 57)%nat)
  || Ascii.eqb c ".".

Definition version_prefix : string := "__version__ = ".

(** [VERSION_RE], and the index of the re_item its one group wraps. *)
Definition VERSION_RE : list re_item :=
  lits version_prefix ++ [RClass is_quote; RPlus is_digit_or_dot; RClass is_quote].

Definition version_group : nat := String.length version_prefix + 1.

(** [m.group(1)]. *)
Definition group1 (m : list string) : string := nth version_group m "".

(** [get_version()], as a function of what reading
    [lamblayer/__init__.py] gives: [None] when the file is not there.
    The result of [search] is used without a test, so no match is an
    [AttributeError] on [None]. *)
Definition get_version (init_py : option string) : py_error + string :=
  match init_py with
  | None => inl FileNotFoundError
  | Some init =>
    match search VERSION_RE init with
    | None => inl AttributeError
    | Some m => inr (group1 m)
    end
  end.

(** ** Predicates of the specification *)

(** [m] raises no exception that [bad] selects. *)
Definition never_raises {A} (bad : exn -> bool) (m : M A) : Prop :=
  forall w x w', m w = (Raise x, w') -> bad x = false.

(** Tests for three of the classes of [exceptions.py]. *)
Definition is_invalid_option (x : exn) : bool :=
  match x with
  | LamblayerInvalidOptionError _ => true
  | _ => false
  end.

Definition is_create_layer_error (x : exn) : bool :=
  match x with
  | LamblayerCreateLayerError _ => true
  | _ => false
  end.

Definition is_param_validation (x : exn) : bool :=
  match x with
  | LamblayerParamValidationError _ => true
  | _ => false
  end.

(** Every run of [m] only adds events at the end of the trace, and
    each event it adds satisfies [P]. *)
Definition emits_only {A} (P : event -> Prop) (m : M A) : Prop :=
  forall w out w',
    m w = (out, w') -> exists t, w_trace w' = w_trace w ++ t /\ Forall P t.

(** An event that reads or writes the disk or uses the network. *)
Definition is_io (ev : event) : bool :=
  match ev with
  | EvLog _ _ => false
  | _ => true
  end.

(** A call of [shutil.rmtree]. *)
Definition is_rmtree (ev : event) : bool :=
  match ev with
  | EvRmtree _ => true
  | _ => false
  end.

(** The world after the events [evs]. *)
Definition after (w : world) (evs : list event) : world :=
  {| w_fs := w_fs w;
     w_requests := w_requests w;
     w_trace := w_trace w ++ evs |}.

(** The world after [k] more requests that left [evs] in the trace. *)
Definition requested (w : world) (k : nat) (evs : list event) : world :=
  {| w_fs := w_fs w;
     w_requests := w_requests w + k;
     w_trace := w_trace w ++ evs |}.


(** What has been logged when the options are checked. *)
Definition option_logs (packages src : option string) (layer_path : string)
  : list event :=
  [EvLog DEBUG [Lit "packages: "; Fmt (of_opt packages)];
   EvLog DEBUG [Lit "src: "; Fmt (of_opt src)];
   EvLog DEBUG [Lit "layer: "; Fmt (VStr layer_path)]].

(** *** Path strings and the file tree *)

(** [c] does not occur in [s]. *)
Fixpoint has_char (c : ascii) (s : string) : bool :=
  match s with
  | EmptyString => false
  | String a s' => Ascii.eqb a c || has_char c s'
  end.





(** The scratch directory of the run. *)
Definition scratch (e : env) : path :=
  resolve (env_cwd e) (env_timestamp_hash e).


(** Nothing of the tree is at or below [root]. *)
Definition fresh (root : path) (f : fs) : bool :=
  forallb (fun entry => negb (is_below root (fst entry))) f.

(** The directories [makedirs] makes from [parent] down along [rest]. *)
Fixpoint chain (parent : path) (rest : list string) : fs :=
  match rest with
  | [] => []
  | x :: rest' => (parent ++ [x], NDir) :: chain (parent ++ [x]) rest'
  end.


(** *** The branch [if packages:] *)

(** [200 <= status < 300]. *)
Definition is_2xx (status : Z) : bool := (200 <=? status) && (status <? 300).

(** The [k] requests from the [start]-th on are answered, none of them
    with status 200. *)
Definition still_building (e : env) (url : string) (start k : nat) : Prop :=
  forall i, (i < k)%nat ->
    exists r, env_http e (start + i) url = Answer r /\ status_code r <> 200.

(** What [k] turns of the polling loop that did not see status 200
    leave in the trace, when [elapsed] seconds had been counted before
    them. *)
Fixpoint retries (url : string) (elapsed : Z) (k : nat) : list event :=
  match k with
  | O => []
  | S k' =>
    [EvGet url; EvSleep 5;
     EvLog INFO [Lit "still downloading packages... ";
                 Fmt (VInt (elapsed + 5)); Lit "s elapsed"]]
    ++ retries url (elapsed + 5) k'
  end.

(** The polling loop only requests, sleeps and logs. *)
Definition is_polling (url : string) (ev : event) : Prop :=
  match ev with
  | EvGet u => u = url
  | EvSleep s => s = 5
  | EvLog INFO _ => True
  | _ => False
  end.

(** What [fetch_and_publish] does once the build service has answered
    [pre_signedurl]: it polls that URL, sleeps, logs, and publishes the
    bucket and key cut out of it. *)
Definition is_fetching (n d c l : value) (pre_signedurl : string)
  (ev : event) : Prop :=
  match ev with
  | EvGet u => u = pre_signedurl
  | EvSleep s => s = 5
  | EvLog _ _ => True
  | EvPublish req =>
    req = {| LayerName := n;
             Description := d;
             Content := S3 (s3_bucket pre_signedurl) (s3_key pre_signedurl);
             CompatibleRuntimes := c;
             LicenseInfo := l |}
  | _ => False
  end.

(** The world in which the polling starts: the build service has
    answered [r0] to the request for [url], and that has been logged. *)
Definition polling_from (w : world) (url : string) (r0 : response) : world :=
  requested w 1
    [EvGet url; EvLog DEBUG [Lit "pre_signedurl: "; Fmt (VStr (text r0))]].

(** The request [fetch_and_publish] publishes with. *)
Definition s3_request (n d c l : value) (pre_signedurl : string)
  : publish_request :=
  {| LayerName := n;
     Description := d;
     Content := S3 (s3_bucket pre_signedurl) (s3_key pre_signedurl);
     CompatibleRuntimes := c;
     LicenseInfo := l |}.

(** *** What a run leaves alone *)

(** Every run of [m] leaves [proj] of the world as it was. *)
Definition keeps {A X} (proj : world -> X) (m : M A) : Prop :=
  forall w out w', m w = (out, w') -> proj w' = proj w.


(** A call that reads or writes the file tree. *)
Definition is_disk (ev : event) : bool :=
  match ev with
  | EvCopytree _ _ | EvMakeArchive _ _ | EvRead _ | EvRmtree _ => true
  | _ => false
  end.

(** A call of [publish_layer_version]. *)
Definition is_publish (ev : event) : bool :=
  match ev with
  | EvPublish _ => true
  | _ => false
  end.

(** *** The configuration files *)

(** The text [_parse_packages_json] returns for the value of
    ["Packages"]: a string as it is, a list of strings joined with [&]. *)
Definition packages_text (v : value) : option string :=
  match v with
  | VStr s => Some s
  | VList xs => option_map (str_join "&") (strs_of xs)
  | _ => None
  end.

(** The exception that reading a configuration file ends with, when
    what was read is not a JSON object. *)
Definition config_error (read : config_read) : option py_error :=
  match read with
  | NoSuchFile => Some FileNotFoundError
  | NotJson => Some JSONDecodeError
  | Parsed (VDict _) => None
  | Parsed _ => Some AttributeError
  end.

(** *** The publish call *)

(** The argument of the publish call for a layer with the given
    metadata. *)
Definition layer_request (n d c l : value) (content : content)
  : publish_request :=
  {| LayerName := n;
     Description := d;
     Content := content;
     CompatibleRuntimes := c;
     LicenseInfo := l |}.

(** What [create_layer] leaves in the trace when the publish call
    answers [arn]. *)
Definition published (req : publish_request) (arn : string) : list event :=
  [EvLog INFO [Lit "creating layer"]; EvPublish req;
   EvLog INFO [Lit "created "; Fmt (VStr arn)]].

(** Whenever [m] returns, the last thing it did was to publish a layer
    with the given metadata, for the first time in the run. *)
Definition publishes_last (e : env) (n d c l : value) (m : M unit) : Prop :=
  forall w w',
    m w = (Ret tt, w') ->
    exists content arn before,
      env_publish e (layer_request n d c l content) = Some arn
      /\ w_trace w'
         = w_trace w ++ before
           ++ published (layer_request n d c l content) arn
      /\ Forall (fun ev => is_publish ev = false) before.

(** The record the polling loop logs when [elapsed] seconds have been
    slept. *)
Definition still_downloading (elapsed : Z) : event :=
  EvLog INFO [Lit "still downloading packages... "; Fmt (VInt elapsed);
              Lit "s elapsed"].

(** *** The scratch directory after the copy *)


(** *** The version string *)

(** Every character of [s] is in the class [p]. *)
Fixpoint all_in (p : ascii -> bool) (s : string) : bool :=
  match s with
  | EmptyString => true
  | String c s' => p c && all_in p s'
  end.

(** A version as [VERSION_RE] takes it: digits and dots, at least one. *)
Definition is_version (v : string) : bool :=
  negb (v =? "")%string && all_in is_digit_or_dot v.

(** The text of an assignment of [v] to [__version__], with the quotes
    [q1] and [q2]. *)
Definition version_line (q1 : ascii) (v : string) (q2 : ascii) : string :=
  (version_prefix ++ String q1 (v ++ String q2 ""))%string.

(** ** Sample environments and worlds

    The closed instances of the theorems are run on these. *)

(** A machine without configuration files and without network. *)
Definition quiet_env : env :=
  {| env_timestamp_hash := "9f86d081884c7d65";
     env_cwd := ["home"; "u"];
     env_config := fun _ => NoSuchFile;
     env_http := fun _ _ => NoAnswer;
     env_publish := fun _ => None;
     env_zip := fun _ => [];
     env_fault := fun _ => false |}.

(** An environment with the given configuration files and the given
    answers to the successive HTTP requests. *)
Definition env_of (files : list (string * value)) (answers : list response)
  : env :=
  {| env_timestamp_hash := "9f86d081884c7d65";
     env_cwd := ["home"; "u"];
     env_config := fun file =>
       match dict_get files file with
       | Some v => Parsed v
       | None => NoSuchFile
       end;
     env_http := fun n _ =>
       match nth_error answers n with
       | Some r => Answer r
       | None => NoAnswer
       end;
     env_publish := fun _ => Some "arn:aws:lambda:us-east-1:1:layer:L:1";
     env_zip := fun members =>
       flat_map (fun m => match snd m with
                          | Some data => data
                          | None => []
                          end) members;
     env_fault := fun _ => false |}.

Definition empty_world : world :=
  {| w_fs := []; w_requests := 0; w_trace := [] |}.

(** The world that has the file tree [f] and no history. *)
Definition world_of (f : fs) : world :=
  {| w_fs := f; w_requests := 0; w_trace := [] |}.

(** A source directory [lib] in the working directory of [quiet_env]. *)
Definition lib_tree : fs :=
  [(["home"], NDir);
   (["home"; "u"], NDir);
   (["home"; "u"; "lib"], NDir);
   (["home"; "u"; "lib"; "a.py"], NFile true [Byte.x61]);
   (["home"; "u"; "lib"; "sub"], NDir);
   (["home"; "u"; "lib"; "sub"; "b.py"], NFile true [Byte.x62])].

(** The same with a file that cannot be read. *)
Definition locked_tree : fs :=
  lib_tree ++ [(["home"; "u"; "lib"; "secret.key"], NFile false [Byte.x6b])].

(** A layer file that has only a description. *)
Definition layer_without_name : value :=
  VDict [("Description", VStr "numpy for python3.8")].

(** A packages file without ["Arch"]. *)
Definition packages_without_arch : value :=
  VDict [("Runtime", VStr "py38"); ("Packages", VStr "numpy")].

(** A packages file that lists three packages. *)
Definition packages_abc : value :=
  VDict [("Arch", VStr "x86_64"); ("Runtime", VStr "py38");
         ("Packages", VList [VStr "a"; VStr "b"; VStr "c"])].

(** An answer with the given status and nothing else. *)
Definition ready (status : Z) : response :=
  {| status_code := status; text := ""; headers := [] |}.

(** An answer with status 200 and the given headers. *)
Definition built (hs : list (string * string)) : response :=
  {| status_code := 200; text := ""; headers := hs |}.

(** The answer of the build service: a pre-signed URL. *)
Definition presigned : response :=
  {| status_code := 200;
     text := "https://bucket.s3.amazonaws.com/k1/k2";
     headers := [] |}.

(** A build service whose artifact is never ready. *)
Definition env_never_ready : env :=
  {| env_timestamp_hash := "9f86d081884c7d65";
     env_cwd := ["home"; "u"];
     env_config := fun _ => NoSuchFile;
     env_http := fun _ _ => Answer (ready 404);
     env_publish := fun _ => None;
     env_zip := fun _ => [];
     env_fault := fun _ => false |}.

(** A machine with a layer file and a packages file, whose build
    service answers with a pre-signed URL that is ready at the third
    poll. *)
Definition env_remote : env :=
  env_of
    [("layer.json",
      VDict [("LayerName", VStr "numpy");
             ("Description", VStr "numpy for python3.8");
             ("CompatibleRuntimes", VList [VStr "python3.8"]);
             ("LicenseInfo", VStr "BSD")]);
     ("packages.json", packages_abc)]
    [presigned; ready 403; ready 403; built [("content-length", "300")]].


(** * Properties *)

(** ** The monad *)

Ltac run :=
  unfold bind, log, emit, ret, raise, set_fs, get_fs; simpl.

Lemma never_ret {A} bad (a : A) : never_raises bad (ret a).
Proof. intros w x w' H. discriminate H. Qed.

Lemma never_raise {A} bad (x : exn) :
  bad x = false -> never_raises bad (@raise A x).
Proof. intros Hx w y w' H. inversion H. subst. exact Hx. Qed.

Lemma never_bind {A B} bad (m : M A) (k : A -> M B) :
  never_raises bad m -> (forall a, never_raises bad (k a)) ->
  never_raises bad (bind m k).
Proof.
  intros Hm Hk w x w' H. unfold bind in H.
  destruct (m w) as [[a | y | ] w1] eqn:E.
  - eapply Hk. exact H.
  - inversion H. subst. eapply Hm. exact E.
  - discriminate H.
Qed.

Lemma never_emit bad ev : never_raises bad (emit ev).
Proof. intros w x w' H. discriminate H. Qed.

Lemma never_log bad lvl msg : never_raises bad (log lvl msg).
Proof. apply never_emit. Qed.

Lemma never_set_fs bad f : never_raises bad (set_fs f).
Proof. intros w x w' H. discriminate H. Qed.

Lemma never_get_fs bad : never_raises bad get_fs.
Proof. intros w x w' H. discriminate H. Qed.

Lemma never_if {A} bad (b : bool) (m1 m2 : M A) :
  never_raises bad m1 -> never_raises bad m2 ->
  never_raises bad (if b then m1 else m2).
Proof. destruct b; auto. Qed.

Ltac never :=
  repeat match goal with
    | |- never_raises _ (bind _ _) => apply never_bind; [ | intros ? ]
    | |- never_raises _ (ret _) => apply never_ret
    | |- never_raises _ (log _ _) => apply never_log
    | |- never_raises _ (emit _) => apply never_emit
    | |- never_raises _ (set_fs _) => apply never_set_fs
    | |- never_raises _ get_fs => apply never_get_fs
    | |- never_raises _ (raise _) => apply never_raise; reflexivity
    | |- never_raises _ (if _ then _ else _) => apply never_if
    | |- never_raises _ (let _ := _ in _) => cbv zeta
    | |- never_raises _ (match ?x with _ => _ end) => destruct x
    end.

Lemma never_requests_get bad e url :
  bad (PyError RequestException) = false ->
  never_raises bad (requests_get e url).
Proof.
  intros Hb w x w' H. unfold requests_get in H.
  destruct (env_http e (w_requests w) url); inversion H; subst; exact Hb.
Qed.

Lemma never_json_load bad e file :
  (forall p, bad (PyError p) = false) -> never_raises bad (json_load e file).
Proof. intros Hb. unfold json_load. never; apply never_raise, Hb. Qed.

Lemma never_py_get bad d key default :
  (forall p, bad (PyError p) = false) ->
  never_raises bad (py_get d key default).
Proof. intros Hb. unfold py_get. destruct d; never; apply never_raise, Hb. Qed.

Lemma never_invalid_option_layer_json e layer_path :
  never_raises is_invalid_option (_parse_create_layer_json e layer_path).
Proof.
  unfold _parse_create_layer_json.
  never; first [ apply never_json_load | apply never_py_get ]; reflexivity.
Qed.

Lemma never_invalid_option_packages_json e packages_path :
  never_raises is_invalid_option (_parse_packages_json e packages_path).
Proof.
  unfold _parse_packages_json, amp_join.
  never; first [ apply never_json_load | apply never_py_get ]; reflexivity.
Qed.

Lemma never_invalid_option_ziparchive e src wrap_dir1 wrap_dir2 :
  never_raises is_invalid_option (_create_ziparchive e src wrap_dir1 wrap_dir2).
Proof.
  unfold _create_ziparchive, copytree, make_archive, read_bytes, rmtree.
  never.
Qed.

Lemma never_invalid_option_publish e req :
  never_raises is_invalid_option (publish_layer_version e req).
Proof. unfold publish_layer_version. never. Qed.

Lemma never_invalid_option_wait fuel e url elapsed :
  never_raises is_invalid_option (wait_for_download fuel e url elapsed).
Proof.
  revert elapsed. induction fuel as [| fuel IH]; intros elapsed; simpl.
  - intros w x w' H. discriminate H.
  - never; [ apply never_requests_get; reflexivity | apply IH ].
Qed.

Lemma never_invalid_option_create_layer e n d c l content :
  never_raises is_invalid_option (create_layer e n d c l content).
Proof.
  unfold create_layer. never. apply never_invalid_option_publish.
Qed.

Lemma never_invalid_option_from_src e n d c l src wrap_dir1 wrap_dir2 :
  never_raises is_invalid_option
    (create_from_src e n d c l src wrap_dir1 wrap_dir2).
Proof.
  unfold create_from_src.
  never;
    first [ apply never_invalid_option_ziparchive
          | apply never_invalid_option_create_layer ].
Qed.

Lemma never_invalid_option_fetch fuel e n d c l url :
  never_raises is_invalid_option (fetch_and_publish fuel e n d c l url).
Proof.
  unfold fetch_and_publish, get_pre_signedurl, verify_put, py_int.
  never;
    first [ apply never_invalid_option_create_layer
          | apply never_invalid_option_wait
          | apply never_requests_get; reflexivity ].
Qed.

Lemma never_invalid_option_from_packages fuel e n d c l packages :
  never_raises is_invalid_option (create_from_packages fuel e n d c l packages).
Proof.
  unfold create_from_packages.
  never;
    first [ apply never_invalid_option_packages_json
          | apply never_invalid_option_fetch ].
Qed.

(** ** The option check of [create] *)

Lemma never_invalid_option_if_set option body :
  (forall s, never_raises is_invalid_option (body s)) ->
  never_raises is_invalid_option (if_set option body).
Proof.
  intros Hb. unfold if_set. destruct option as [s |].
  - destruct (truthy (Some s)); [ apply Hb | apply never_ret ].
  - apply never_ret.
Qed.

(** C8.  [create] called with both [packages] and [src] set, or with
    neither, raises [LamblayerInvalidOptionError] having done nothing
    but write its three debug records: the file tree and the request
    count are as before and no file, disk or network event is in the
    trace.  Called with exactly one of them set it never raises that
    error, whatever the fuel.  An option is set when Python finds it
    true, that is when it is a string that is not empty. *)
Theorem create_option_check :
  forall fuel e packages src wrap_dir1 wrap_dir2 layer_path w,
    (truthy packages = truthy src ->
     exists message,
       create fuel e packages src wrap_dir1 wrap_dir2 layer_path w
       = (Raise (LamblayerInvalidOptionError message),
          {| w_fs := w_fs w;
             w_requests := w_requests w;
             w_trace := w_trace w ++ option_logs packages src layer_path |})
       /\ existsb is_io (option_logs packages src layer_path) = false)
    /\ (truthy packages <> truthy src ->
        forall message w',
          create fuel e packages src wrap_dir1 wrap_dir2 layer_path w
          <> (Raise (LamblayerInvalidOptionError message), w')).
Proof.
  intros fuel e packages src wrap_dir1 wrap_dir2 layer_path w. split.
  - intros Heq. unfold create. run. rewrite <- Heq.
    destruct (truthy packages); simpl; eexists;
      (split; [ | reflexivity ]);
      rewrite <- !app_assoc; reflexivity.
  - intros Hne message w' Hrun.
    assert (Hnever : never_raises is_invalid_option
              (create fuel e packages src wrap_dir1 wrap_dir2 layer_path)).
    { unfold create.
      destruct (truthy packages) eqn:Hp, (truthy src) eqn:Hs;
        try (exfalso; apply Hne; reflexivity); simpl;
        never;
        first [ apply never_invalid_option_layer_json
              | apply never_invalid_option_if_set; intros ?;
                first [ apply never_invalid_option_from_src
                      | apply never_invalid_option_from_packages ] ]. }
    specialize (Hnever _ _ _ Hrun). discriminate Hnever.
Qed.

Lemma create_option_check_witness :
  (exists message,
     create 0 quiet_env (Some "pk.json") (Some "lib") "python" "" "layer.json"
       empty_world
     = (Raise (LamblayerInvalidOptionError message),
        {| w_fs := [];
           w_requests := 0;
           w_trace := option_logs (Some "pk.json") (Some "lib") "layer.json" |}))
  /\ (forall message w',
        create 0 quiet_env (Some "pk.json") None "python" "" "layer.json"
          empty_world
        <> (Raise (LamblayerInvalidOptionError message), w')).
Proof.
  split.
  - destruct (create_option_check 0 quiet_env (Some "pk.json") (Some "lib")
                "python" "" "layer.json" empty_world) as [Hboth _].
    destruct (Hboth eq_refl) as [message [Hrun _]].
    exists message. exact Hrun.
  - destruct (create_option_check 0 quiet_env (Some "pk.json") None
                "python" "" "layer.json" empty_world) as [_ Hone].
    apply Hone. simpl. discriminate.
Defined.

(** ** The configuration files *)

Lemma json_load_parsed e file v w :
  env_config e file = Parsed v ->
  json_load e file w = (Ret v, after w [EvOpen file]).
Proof. intros H. unfold json_load. run. rewrite H. reflexivity. Qed.

Lemma never_param_validation_layer_json e layer_path :
  never_raises is_param_validation (_parse_create_layer_json e layer_path).
Proof.
  unfold _parse_create_layer_json.
  never; first [ apply never_json_load | apply never_py_get ]; reflexivity.
Qed.

(** C2, as the code has it.  [_parse_create_layer_json] checks nothing:
    whenever the file holds a JSON object it returns the four values
    looked up in it, [None] standing for each key that is absent, and
    on no file does it raise a validation error. *)
Theorem parse_create_layer_json_permissive :
  forall e layer_path w,
    (forall kvs,
       env_config e layer_path = Parsed (VDict kvs) ->
       _parse_create_layer_json e layer_path w
       = (Ret (dict_get_or kvs "LayerName" VNone,
               dict_get_or kvs "Description" VNone,
               dict_get_or kvs "CompatibleRuntimes" VNone,
               dict_get_or kvs "LicenseInfo" VNone),
          after w [EvOpen layer_path]))
    /\ never_raises is_param_validation
         (_parse_create_layer_json e layer_path).
Proof.
  intros e layer_path w. split.
  - intros kvs H. unfold _parse_create_layer_json, bind.
    rewrite (json_load_parsed _ _ _ _ H). reflexivity.
  - apply never_param_validation_layer_json.
Qed.

Lemma parse_create_layer_json_permissive_witness :
  _parse_create_layer_json
    (env_of [("layer.json", layer_without_name)] []) "layer.json" empty_world
  = (Ret (VNone, VStr "numpy for python3.8", VNone, VNone),
     after empty_world [EvOpen "layer.json"]).
Proof.
  destruct (parse_create_layer_json_permissive
              (env_of [("layer.json", layer_without_name)] [])
              "layer.json" empty_world) as [Hret _].
  exact (Hret _ eq_refl).
Defined.

(** C2, as the specification words it, fails: a layer file with neither
    ["LayerName"] nor ["CompatibleRuntimes"] is parsed without any
    error, and [None] is returned for both. *)
Lemma parse_create_layer_json_accepts_missing_name :
  dict_get [("Description", VStr "numpy for python3.8")] "LayerName" = None
  /\ dict_get [("Description", VStr "numpy for python3.8")]
       "CompatibleRuntimes" = None
  /\ _parse_create_layer_json
       (env_of [("layer.json", layer_without_name)] []) "layer.json"
       empty_world
     = (Ret (VNone, VStr "numpy for python3.8", VNone, VNone),
        after empty_world [EvOpen "layer.json"]).
Proof. repeat split. Qed.

(** The type checks of [_parse_packages_json] come in the order of the
    source, and each one raises [LamblayerParamValidationError]. *)
Lemma parse_packages_json_checks e packages_path kvs w :
  env_config e packages_path = Parsed (VDict kvs) ->
  let arch := dict_get_or kvs "Arch" VNone in
  let runtime := dict_get_or kvs "Runtime" VNone in
  let packages := dict_get_or kvs "Packages" VNone in
  let no_deps := dict_get_or kvs "No_deps" (VInt 0) in
  let raised x :=
    _parse_packages_json e packages_path w
    = (Raise x, after w [EvOpen packages_path]) in
  (is_str arch = false -> raised (ParamValidationError "Arch" arch [T_str]))
  /\ (is_str arch = true -> is_str runtime = false ->
      raised (ParamValidationError "Runtime" runtime [T_str]))
  /\ (is_str arch = true -> is_str runtime = true ->
      is_str_or_list packages = false ->
      raised (ParamValidationError "Packages" packages [T_str; T_list]))
  /\ (is_str arch = true -> is_str runtime = true ->
      is_str_or_list packages = true -> is_int no_deps = false ->
      raised (ParamValidationError "No_deps" no_deps [T_int])).
Proof.
  intros H arch runtime packages no_deps raised. subst raised.
  unfold _parse_packages_json, bind.
  rewrite (json_load_parsed _ _ _ _ H). simpl.
  fold arch runtime packages no_deps.
  repeat split.
  - destruct arch; try reflexivity. discriminate.
  - destruct arch; try discriminate. intros _.
    destruct runtime; try reflexivity. discriminate.
  - destruct arch; try discriminate. intros _.
    destruct runtime; try discriminate. intros _ Hp. rewrite Hp. reflexivity.
  - destruct arch; try discriminate. intros _.
    destruct runtime; try discriminate. intros _ Hp Hn. rewrite Hp. simpl.
    destruct no_deps; try discriminate; reflexivity.
Qed.

(** C3, at the file without ["Arch"].  The error raised is a
    [LamblayerParamValidationError], but its message is the first line
    of the constructor only: it names neither ["Arch"], nor the value
    [None], nor the type [str]. *)
Theorem parse_packages_json_message_omits_field :
  let message :=
    ("ParamValidationError: Parameter validation failed:" ++ String "010" "")%string in
  _parse_packages_json
    (env_of [("packages.json", packages_without_arch)] []) "packages.json"
    empty_world
  = (Raise (LamblayerParamValidationError message),
     after empty_world [EvOpen "packages.json"])
  /\ contains "Arch" message = false
  /\ contains "None" message = false
  /\ contains "str" message = false.
Proof. repeat split. Qed.

(** ** What a computation adds to the trace *)

Lemma emits_nothing {A} P (m : M A) :
  (forall w, snd (m w) = w) -> emits_only P m.
Proof.
  intros Hm w out w' H. exists []. split; [ | constructor ].
  rewrite <- (Hm w), H. simpl. symmetry. apply app_nil_r.
Qed.

Lemma emits_ret {A} P (a : A) : emits_only P (ret a).
Proof. apply emits_nothing. reflexivity. Qed.

Lemma emits_raise {A} P (x : exn) : emits_only P (@raise A x).
Proof. apply emits_nothing. reflexivity. Qed.

Lemma emits_get_fs P : emits_only P get_fs.
Proof. apply emits_nothing. reflexivity. Qed.

Lemma emits_set_fs P f : emits_only P (set_fs f).
Proof.
  intros w out w' H. inversion H. subst. exists []. simpl.
  split; [ symmetry; apply app_nil_r | constructor ].
Qed.

Lemma emits_bind {A B} P (m : M A) (k : A -> M B) :
  emits_only P m -> (forall a, emits_only P (k a)) -> emits_only P (bind m k).
Proof.
  intros Hm Hk w out w' H. unfold bind in H.
  destruct (m w) as [[a | y | ] w1] eqn:E.
  - destruct (Hm _ _ _ E) as [t1 [H1 F1]].
    destruct (Hk _ _ _ _ H) as [t2 [H2 F2]].
    exists (t1 ++ t2). split.
    + rewrite H2, H1. symmetry. apply app_assoc.
    + apply Forall_app. split; assumption.
  - inversion H. subst. eapply Hm. exact E.
  - inversion H. subst. eapply Hm. exact E.
Qed.

Lemma emits_emit (P : event -> Prop) ev : P ev -> emits_only P (emit ev).
Proof.
  intros Hp w out w' H. inversion H. subst. exists [ev].
  split; [ reflexivity | repeat constructor; exact Hp ].
Qed.

Lemma emits_log (P : event -> Prop) lvl msg :
  P (EvLog lvl msg) -> emits_only P (log lvl msg).
Proof. apply emits_emit. Qed.

Lemma emits_if {A} P (b : bool) (m1 m2 : M A) :
  emits_only P m1 -> emits_only P m2 -> emits_only P (if b then m1 else m2).
Proof. destruct b; auto. Qed.

Lemma emits_requests_get (P : event -> Prop) e url :
  P (EvGet url) -> emits_only P (requests_get e url).
Proof.
  intros Hp w out w' H. unfold requests_get in H.
  destruct (env_http e (w_requests w) url); inversion H; subst;
    exists [EvGet url]; (split; [ reflexivity | repeat constructor; exact Hp ]).
Qed.

Lemma emits_weaken {A} (P Q : event -> Prop) (m : M A) :
  (forall ev, P ev -> Q ev) -> emits_only P m -> emits_only Q m.
Proof.
  intros HPQ Hm w out w' H. destruct (Hm _ _ _ H) as [t [Ht Ft]].
  exists t. split; [ exact Ht | ].
  eapply Forall_impl; [ exact HPQ | exact Ft ].
Qed.

(** Splits a goal [emits_only P m] along the structure of [m]; what is
    left are the events themselves. *)
Ltac emits :=
  repeat match goal with
    | |- emits_only _ (bind _ _) => apply emits_bind; [ | intros ? ]
    | |- emits_only _ (ret _) => apply emits_ret
    | |- emits_only _ (log _ _) => apply emits_log
    | |- emits_only _ (emit _) => apply emits_emit
    | |- emits_only _ (set_fs _) => apply emits_set_fs
    | |- emits_only _ get_fs => apply emits_get_fs
    | |- emits_only _ (raise _) => apply emits_raise
    | |- emits_only _ (requests_get _ _) => apply emits_requests_get
    | |- emits_only _ (if _ then _ else _) => apply emits_if
    | |- emits_only _ (let _ := _ in _) => cbv zeta
    | |- emits_only _ (match ?x with _ => _ end) => destruct x
    end.

Lemma emits_wait fuel e url elapsed :
  emits_only (is_polling url) (wait_for_download fuel e url elapsed).
Proof.
  revert elapsed. induction fuel as [| fuel IH]; intros elapsed; simpl.
  - apply emits_nothing. reflexivity.
  - emits; try exact I; try reflexivity. apply IH.
Qed.

Lemma bind_assoc {A B C} (m : M A) (f : A -> M B) (g : B -> M C) w :
  bind (bind m f) g w = bind m (fun a => bind (f a) g) w.
Proof. unfold bind. destruct (m w) as [[a | x |] w1]; reflexivity. Qed.

Lemma bind_returned {A B} (m : M A) (k : A -> M B) w a w1 :
  m w = (Ret a, w1) -> bind m k w = k a w1.
Proof. intros H. unfold bind. rewrite H. reflexivity. Qed.

Lemma bind_raised {A B} (m : M A) (k : A -> M B) w x w1 :
  m w = (Raise x, w1) -> bind m k w = (Raise x, w1).
Proof. intros H. unfold bind. rewrite H. reflexivity. Qed.

Lemma bind_emit {B} ev (k : unit -> M B) w :
  bind (emit ev) k w = k tt (after w [ev]).
Proof. reflexivity. Qed.

Lemma bind_log {B} lvl msg (k : unit -> M B) w :
  bind (log lvl msg) k w = k tt (after w [EvLog lvl msg]).
Proof. reflexivity. Qed.

Lemma after_after w evs1 evs2 :
  after (after w evs1) evs2 = after w (evs1 ++ evs2).
Proof. unfold after. simpl. rewrite <- app_assoc. reflexivity. Qed.

Lemma dict_get_or_some kvs key default v :
  dict_get kvs key = Some v -> dict_get_or kvs key default = v.
Proof. intros H. unfold dict_get_or. rewrite H. reflexivity. Qed.

Lemma is_polling_fetching n d c l url ev :
  is_polling url ev -> is_fetching n d c l url ev.
Proof.
  destruct ev as [lvl msg | | | | | | u | s | req]; simpl; try tauto.
Qed.

(** What follows the answer of the build service. *)
Lemma emits_after_answer fuel e n d c l pre :
  emits_only (is_fetching n d c l pre)
    (response <- wait_for_download fuel e pre 0 ;;
     verify_put response ;;;
     create_layer e n d c l (S3 (s3_bucket pre) (s3_key pre))).
Proof.
  unfold verify_put, py_int, create_layer, publish_layer_version.
  apply emits_bind.
  - eapply emits_weaken; [ apply is_polling_fetching | apply emits_wait ].
  - intros r. emits; try exact I; reflexivity.
Qed.

(** [fetch_and_publish] starts with the request to the build service;
    all it does afterwards is fixed by the text of the answer. *)
Lemma fetch_events fuel e n d c l url w out w' :
  fetch_and_publish fuel e n d c l url w = (out, w') ->
  exists t,
    w_trace w' = w_trace w ++ EvGet url :: t
    /\ match env_http e (w_requests w) url with
       | Answer r => Forall (is_fetching n d c l (text r)) t
       | NoAnswer => t = []
       end.
Proof.
  unfold fetch_and_publish, get_pre_signedurl.
  rewrite !bind_assoc. unfold bind at 1. unfold requests_get.
  destruct (env_http e (w_requests w) url) as [r |].
  - destruct ((200 <=? status_code r) && (status_code r <? 300)).
    + rewrite bind_assoc, bind_log. unfold bind at 1, ret at 1.
      intros H.
      destruct (emits_after_answer fuel e n d c l (text r) _ _ _ H)
        as [t [Ht Ft]].
      exists (EvLog DEBUG [Lit "pre_signedurl: "; Fmt (VStr (text r))] :: t).
      split.
      * rewrite Ht. simpl. rewrite <- !app_assoc. reflexivity.
      * constructor; [ exact I | exact Ft ].
    + intros H. inversion H. subst. exists []. split; [ reflexivity | ].
      constructor.
  - intros H. inversion H. subst. exists []. split; reflexivity.
Qed.

Lemma strs_of_map_VStr ps : strs_of (map VStr ps) = Some ps.
Proof.
  induction ps as [| p ps IH]; simpl; [ reflexivity | ].
  rewrite IH. reflexivity.
Qed.

(** C6.  A packages file whose ["Packages"] is a list of strings is
    parsed into the strings joined with [&]; the URL is
    [https://layerzip.higuchi.work/<arch>/<runtime>/<packages>?no-deps=<flag>];
    and the first request of the branch [if packages:] goes to that
    URL. *)
Theorem packages_joined_into_url :
  forall fuel e n d c l packages_path kvs arch runtime ps no_deps w,
    env_config e packages_path = Parsed (VDict kvs) ->
    dict_get kvs "Arch" = Some (VStr arch) ->
    dict_get kvs "Runtime" = Some (VStr runtime) ->
    dict_get kvs "Packages" = Some (VList (map VStr ps)) ->
    as_int (dict_get_or kvs "No_deps" (VInt 0)) = Some no_deps ->
    _parse_packages_json e packages_path w
    = (Ret (arch, runtime, str_join "&" ps, no_deps),
       after w [EvOpen packages_path])
    /\ build_url arch runtime (str_join "&" ps) no_deps
       = ("https://layerzip.higuchi.work/" ++ arch ++ "/" ++ runtime ++ "/"
            ++ str_join "&" ps ++ "?no-deps=" ++ format_int no_deps)%string
    /\ exists out w' rest,
         create_from_packages fuel e n d c l packages_path w = (out, w')
         /\ w_trace w'
            = w_trace w
              ++ [EvLog INFO [Lit "creating zip archive"];
                  EvOpen packages_path;
                  EvLog DEBUG [Lit "arch: "; Fmt (VStr arch)];
                  EvLog DEBUG [Lit "runtime: "; Fmt (VStr runtime)];
                  EvLog DEBUG [Lit "packages: "; Fmt (VStr (str_join "&" ps))];
                  EvLog DEBUG [Lit "no_deps: "; Fmt (int_value no_deps)];
                  EvGet (build_url arch runtime (str_join "&" ps) no_deps)]
              ++ rest.
Proof.
  intros fuel e n d c l packages_path kvs arch runtime ps no_deps w
    Hcfg Harch Hruntime Hpackages Hno_deps.
  assert (Hparse : forall w0,
            _parse_packages_json e packages_path w0
            = (Ret (arch, runtime, str_join "&" ps, no_deps),
               after w0 [EvOpen packages_path])).
  { intros w0. unfold _parse_packages_json, bind.
    rewrite (json_load_parsed _ _ _ _ Hcfg). unfold py_get, ret.
    rewrite (dict_get_or_some _ _ _ _ Harch).
    rewrite (dict_get_or_some _ _ _ _ Hruntime).
    rewrite (dict_get_or_some _ _ _ _ Hpackages).
    rewrite Hno_deps. simpl. unfold amp_join. rewrite strs_of_map_VStr.
    reflexivity. }
  split; [ apply Hparse | ]. split; [ reflexivity | ].
  unfold create_from_packages.
  rewrite bind_log. rewrite (bind_returned _ _ _ _ _ (Hparse _)).
  rewrite !bind_log. rewrite !after_after. simpl app.
  match goal with
  | |- context [fetch_and_publish fuel e n d c l ?u ?w1] =>
    destruct (fetch_and_publish fuel e n d c l u w1) as [out w'] eqn:E
  end.
  destruct (fetch_events _ _ _ _ _ _ _ _ _ _ E) as [rest [Hrest _]].
  exists out, w', rest. split; [ reflexivity | ].
  rewrite Hrest. simpl. rewrite <- app_assoc. reflexivity.
Qed.

Lemma packages_joined_into_url_witness :
  _parse_packages_json
    (env_of [("packages.json", packages_abc)] []) "packages.json" empty_world
  = (Ret ("x86_64", "py38", "a&b&c", IInt 0),
     after empty_world [EvOpen "packages.json"])
  /\ build_url "x86_64" "py38" "a&b&c" (IInt 0)
     = "https://layerzip.higuchi.work/x86_64/py38/a&b&c?no-deps=0".
Proof.
  destruct (packages_joined_into_url 0
              (env_of [("packages.json", packages_abc)] [])
              VNone VNone VNone VNone "packages.json"
              [("Arch", VStr "x86_64"); ("Runtime", VStr "py38");
               ("Packages", VList [VStr "a"; VStr "b"; VStr "c"])]
              "x86_64" "py38" ["a"; "b"; "c"] (IInt 0) empty_world
              eq_refl eq_refl eq_refl eq_refl eq_refl) as [Hparse [Hurl _]].
  split; [ exact Hparse | exact Hurl ].
Defined.

(** ** Splitting the pre-signed URL *)

Lemma append_empty_r (s : string) : (s ++ "")%string = s.
Proof. induction s as [| a s IH]; simpl; [ | rewrite IH ]; reflexivity. Qed.

Lemma append_assoc (a b c : string) :
  ((a ++ b) ++ c)%string = (a ++ (b ++ c))%string.
Proof. induction a as [| x a IH]; simpl; [ | rewrite IH ]; reflexivity. Qed.

Lemma append_char (cur : string) (a : ascii) (s : string) :
  ((cur ++ String a "") ++ s)%string = (cur ++ String a s)%string.
Proof. rewrite append_assoc. reflexivity. Qed.

Lemma has_char_append c a b :
  has_char c (a ++ b) = has_char c a || has_char c b.
Proof.
  induction a as [| x a IH]; simpl; [ reflexivity | ].
  rewrite IH. apply orb_assoc.
Qed.

(** A piece without the separator is not cut. *)
Lemma split_go_char_whole c s maxsplit cur :
  has_char c s = false ->
  split_go (String c "") maxsplit 0 cur s = [(cur ++ s)%string].
Proof.
  revert cur. induction s as [| a s IH]; intros cur H; simpl.
  - rewrite append_empty_r. reflexivity.
  - simpl in H. apply orb_false_elim in H. destruct H as [Hac Hs].
    rewrite Ascii.eqb_sym in Hac. rewrite Hac. simpl.
    rewrite (IH _ Hs), append_char.
    destruct maxsplit as [[| k] |]; reflexivity.
Qed.

(** The first cut is at the first occurrence of the separator. *)
Lemma split_go_char_cut c a rest maxsplit cur :
  has_char c a = false ->
  maxsplit <> Some O ->
  split_go (String c "") maxsplit 0 cur (a ++ String c rest)
  = (cur ++ a)%string
    :: split_go (String c "") (option_map Nat.pred maxsplit) 0 "" rest.
Proof.
  revert cur. induction a as [| x a IH]; intros cur H Hm; simpl.
  - rewrite Ascii.eqb_refl, append_empty_r. simpl.
    destruct maxsplit as [[| k] |]; [ contradiction Hm | | ]; reflexivity.
  - simpl in H. apply orb_false_elim in H. destruct H as [Hxc Ha].
    rewrite Ascii.eqb_sym in Hxc. rewrite Hxc. simpl.
    rewrite (IH _ Ha Hm), append_char.
    destruct maxsplit as [[| k] |]; [ contradiction Hm | | ]; reflexivity.
Qed.

(** Without the character there is no doubled character to cut at. *)
Lemma split_go_double_whole c s cur :
  has_char c s = false ->
  split_go (String c (String c "")) None 0 cur s = [(cur ++ s)%string].
Proof.
  revert cur. induction s as [| a s IH]; intros cur H; simpl.
  - rewrite append_empty_r. reflexivity.
  - simpl in H. apply orb_false_elim in H. destruct H as [Ha Hs].
    rewrite Ascii.eqb_sym in Ha. rewrite Ha. simpl.
    rewrite (IH _ Hs), append_char. reflexivity.
Qed.

Lemma s3_bucket_of_host bucket rest :
  has_char "." bucket = false ->
  has_char "/" bucket = false ->
  s3_bucket ("https://" ++ bucket ++ "." ++ rest) = bucket.
Proof.
  intros Hdot Hslash. unfold s3_bucket, py_split.
  change ("https://" ++ bucket ++ "." ++ rest)%string
    with (("https://" ++ bucket) ++ String "." rest)%string.
  rewrite split_go_char_cut;
    [ | simpl; exact Hdot | discriminate ].
  simpl. rewrite (split_go_double_whole "/" _ _ Hslash). reflexivity.
Qed.

Lemma s3_key_after_third_slash a b c key :
  has_char "/" a = false ->
  has_char "/" b = false ->
  has_char "/" c = false ->
  s3_key (a ++ "/" ++ b ++ "/" ++ c ++ "/" ++ key) = key.
Proof.
  intros Ha Hb Hc. unfold s3_key, py_splitn.
  change (a ++ "/" ++ b ++ "/" ++ c ++ "/" ++ key)%string
    with (a ++ String "/" (b ++ String "/" (c ++ String "/" key)))%string.
  rewrite (split_go_char_cut _ _ _ _ _ Ha); [ | discriminate ].
  rewrite (split_go_char_cut _ _ _ _ _ Hb); [ | discriminate ].
  rewrite (split_go_char_cut _ _ _ _ _ Hc); [ | discriminate ].
  simpl. destruct key; reflexivity.
Qed.

(** The [Content] of a publish call of [fetch_and_publish] is cut out
    of the text the build service answered. *)
Lemma fetch_publishes_split_url fuel e n d c l url w out w' req :
  fetch_and_publish fuel e n d c l url w = (out, w') ->
  In (EvPublish req) (w_trace w') ->
  In (EvPublish req) (w_trace w)
  \/ exists r,
       env_http e (w_requests w) url = Answer r
       /\ Content req = S3 (s3_bucket (text r)) (s3_key (text r)).
Proof.
  intros H Hin. destruct (fetch_events _ _ _ _ _ _ _ _ _ _ H) as [t [Ht Ft]].
  rewrite Ht in Hin. apply in_app_or in Hin.
  destruct Hin as [Hin | [Hin | Hin]]; [ left; exact Hin | discriminate | ].
  right. destruct (env_http e (w_requests w) url) as [r |].
  - exists r. split; [ reflexivity | ].
    rewrite Forall_forall in Ft. specialize (Ft _ Hin). simpl in Ft.
    rewrite Ft. reflexivity.
  - subst t. contradiction.
Qed.

(** C7.  The bucket is what stands between [https://] and the first
    dot; the key is what follows the third slash; so
    [https://B.rest/k1/k2] gives [(B, k1/k2)]; and these two are the
    [S3Bucket] and [S3Key] of the publish call, cut out of the text the
    build service answered. *)
Theorem s3_bucket_and_key :
  (forall bucket rest,
     has_char "." bucket = false -> has_char "/" bucket = false ->
     s3_bucket ("https://" ++ bucket ++ "." ++ rest) = bucket)
  /\ (forall a b c key,
        has_char "/" a = false -> has_char "/" b = false ->
        has_char "/" c = false ->
        s3_key (a ++ "/" ++ b ++ "/" ++ c ++ "/" ++ key) = key)
  /\ (forall bucket rest key,
        has_char "." bucket = false -> has_char "/" bucket = false ->
        has_char "/" rest = false ->
        let url := ("https://" ++ bucket ++ "." ++ rest ++ "/" ++ key)%string in
        (s3_bucket url, s3_key url) = (bucket, key))
  /\ (forall fuel e n d c l url w out w' req,
        fetch_and_publish fuel e n d c l url w = (out, w') ->
        In (EvPublish req) (w_trace w') ->
        In (EvPublish req) (w_trace w)
        \/ exists r,
             env_http e (w_requests w) url = Answer r
             /\ Content req = S3 (s3_bucket (text r)) (s3_key (text r))).
Proof.
  split; [ exact s3_bucket_of_host | ].
  split; [ exact s3_key_after_third_slash | ].
  split; [ | exact fetch_publishes_split_url ].
  intros bucket rest key Hdot Hslash Hrest url. subst url. f_equal.
  - apply s3_bucket_of_host; assumption.
  - assert (Hurl : ("https://" ++ bucket ++ "." ++ rest ++ "/" ++ key)%string
                   = ("https:" ++ "/" ++ "" ++ "/" ++ (bucket ++ "." ++ rest)
                        ++ "/" ++ key)%string).
    { simpl. rewrite append_assoc. reflexivity. }
    rewrite Hurl. apply s3_key_after_third_slash; try reflexivity.
    rewrite has_char_append, Hslash. simpl. exact Hrest.
Qed.

Lemma s3_bucket_and_key_witness :
  (s3_bucket "https://bucket.s3.amazonaws.com/k1/k2",
   s3_key "https://bucket.s3.amazonaws.com/k1/k2") = ("bucket", "k1/k2").
Proof.
  destruct s3_bucket_and_key as [_ [_ [Hform _]]].
  exact (Hform "bucket" "s3.amazonaws.com" "k1/k2" eq_refl eq_refl eq_refl).
Defined.

(** ** The polling loop *)

Lemma requested_0 w : requested w 0 [] = w.
Proof.
  unfold requested. rewrite Nat.add_0_r, app_nil_r. destruct w; reflexivity.
Qed.

Lemma still_building_shift e url start k :
  still_building e url start (S k) -> still_building e url (S start) k.
Proof.
  intros H i Hi. destruct (H (S i)) as [r [Hr Hs]]; [ lia | ].
  exists r. split; [ | exact Hs ].
  rewrite <- Hr. f_equal. lia.
Qed.

Lemma still_building_unshift e url start k r :
  env_http e start url = Answer r -> status_code r <> 200 ->
  still_building e url (S start) k -> still_building e url start (S k).
Proof.
  intros Hr Hs H i Hi. destruct i as [| i].
  - exists r. rewrite Nat.add_0_r. split; assumption.
  - destruct (H i) as [r' [Hr' Hs']]; [ lia | ].
    exists r'. split; [ | exact Hs' ].
    rewrite <- Hr'. f_equal. lia.
Qed.

(** One turn of the loop on an answer that is not 200: sleep five
    seconds, count them, log, and go round again. *)
Lemma wait_turn fuel e url elapsed w r :
  env_http e (w_requests w) url = Answer r ->
  status_code r <> 200 ->
  wait_for_download (S fuel) e url elapsed w
  = wait_for_download fuel e url (elapsed + 5)
      (requested w 1 (retries url elapsed 1)).
Proof.
  intros Hr Hs. simpl. unfold bind at 1. unfold requests_get. rewrite Hr.
  apply Z.eqb_neq in Hs. rewrite Hs.
  rewrite bind_emit, bind_log. rewrite after_after.
  f_equal. unfold requested, after. simpl.
  rewrite Nat.add_1_r, <- app_assoc. reflexivity.
Qed.

Lemma requested_requested w j k evs1 evs2 :
  requested (requested w j evs1) k evs2 = requested w (j + k) (evs1 ++ evs2).
Proof.
  unfold requested. simpl. rewrite <- app_assoc, Nat.add_assoc. reflexivity.
Qed.

(** The loop leaves at the first answer with status 200. *)
Lemma wait_succeeds e url k : forall fuel elapsed w r,
  (k < fuel)%nat ->
  still_building e url (w_requests w) k ->
  env_http e (w_requests w + k) url = Answer r ->
  status_code r = 200 ->
  wait_for_download fuel e url elapsed w
  = (Ret r, requested w (S k) (retries url elapsed k ++ [EvGet url])).
Proof.
  induction k as [| k IH]; intros fuel elapsed w r Hk Hb Hr Hs.
  - destruct fuel as [| fuel]; [ lia | ].
    rewrite Nat.add_0_r in Hr. simpl. unfold bind, requests_get.
    rewrite Hr. apply Z.eqb_eq in Hs. rewrite Hs. unfold ret.
    f_equal. unfold requested. simpl. f_equal. lia.
  - destruct fuel as [| fuel]; [ lia | ].
    destruct (Hb 0%nat) as [r0 [Hr0 Hs0]]; [ lia | ].
    rewrite Nat.add_0_r in Hr0.
    rewrite (wait_turn _ _ _ _ _ _ Hr0 Hs0).
    rewrite (IH fuel (elapsed + 5) _ r).
    + rewrite requested_requested. reflexivity.
    + lia.
    + simpl. rewrite Nat.add_1_r. apply still_building_shift. exact Hb.
    + simpl. rewrite <- Hr. f_equal. lia.
    + exact Hs.
Qed.

(** While no answer has status 200 the loop uses up any fuel. *)
Lemma wait_goes_on e url fuel : forall elapsed w,
  still_building e url (w_requests w) fuel ->
  wait_for_download fuel e url elapsed w
  = (OutOfFuel, requested w fuel (retries url elapsed fuel)).
Proof.
  induction fuel as [| fuel IH]; intros elapsed w Hb.
  - simpl. rewrite requested_0. reflexivity.
  - destruct (Hb 0%nat) as [r0 [Hr0 Hs0]]; [ lia | ].
    rewrite Nat.add_0_r in Hr0.
    rewrite (wait_turn _ _ _ _ _ _ Hr0 Hs0). rewrite IH.
    + rewrite requested_requested. reflexivity.
    + simpl. rewrite Nat.add_1_r. apply still_building_shift. exact Hb.
Qed.

(** If the loop returns, it returns an answer with status 200, after
    as many retries as there were other answers before it. *)
Lemma wait_returned e url fuel : forall elapsed w r w',
  wait_for_download fuel e url elapsed w = (Ret r, w') ->
  status_code r = 200
  /\ exists k,
       (k < fuel)%nat
       /\ still_building e url (w_requests w) k
       /\ env_http e (w_requests w + k) url = Answer r
       /\ w' = requested w (S k) (retries url elapsed k ++ [EvGet url]).
Proof.
  induction fuel as [| fuel IH]; intros elapsed w r w' H.
  - discriminate H.
  - destruct (env_http e (w_requests w) url) as [r0 |] eqn:Hr0.
    + destruct (Z.eq_dec (status_code r0) 200) as [Hs | Hs].
      * assert (Hb : still_building e url (w_requests w) 0)
          by (intros i Hi; lia).
        assert (Hr0' : env_http e (w_requests w + 0) url = Answer r0)
          by (rewrite Nat.add_0_r; exact Hr0).
        rewrite (wait_succeeds e url 0 (S fuel) elapsed w r0) in H;
          [ | lia | exact Hb | exact Hr0' | exact Hs ].
        inversion H. subst. split; [ exact Hs | ].
        exists 0%nat. repeat split; [ lia | exact Hb | exact Hr0' ].
      * rewrite (wait_turn _ _ _ _ _ _ Hr0 Hs) in H.
        destruct (IH _ _ _ _ H) as [H200 [k [Hk [Hb [Hr Hw]]]]].
        split; [ exact H200 | ].
        exists (S k). simpl in Hb, Hr. rewrite Nat.add_1_r in Hb, Hr.
        repeat split.
        -- lia.
        -- apply (still_building_unshift _ _ _ _ _ Hr0 Hs Hb).
        -- rewrite <- Hr. f_equal. lia.
        -- rewrite Hw, requested_requested. reflexivity.
    + simpl in H. unfold bind, requests_get in H. rewrite Hr0 in H.
      discriminate H.
Qed.

(** ** The branch [if packages:] *)

Lemma create_layer_run e n d c l content w :
  create_layer e n d c l content w
  = let req := {| LayerName := n;
                  Description := d;
                  Content := content;
                  CompatibleRuntimes := c;
                  LicenseInfo := l |} in
    match env_publish e req with
    | Some arn =>
      (Ret tt,
       after w [EvLog INFO [Lit "creating layer"]; EvPublish req;
                EvLog INFO [Lit "created "; Fmt (VStr arn)]])
    | None =>
      (Raise (PyError ClientError),
       after w [EvLog INFO [Lit "creating layer"]; EvPublish req])
    end.
Proof.
  unfold create_layer, publish_layer_version. cbv zeta.
  rewrite bind_log, bind_assoc, bind_emit.
  destruct (env_publish e _) as [arn |]; unfold bind, ret, raise, log, emit;
    unfold after; simpl; rewrite <- !app_assoc; reflexivity.
Qed.

Lemma verify_put_run r w :
  verify_put r w
  = match headers_get (headers r) "Content-Length" with
    | None => (Raise (PyError TypeError), w)
    | Some s =>
      match int_of_str s with
      | None => (Raise (PyError ValueError), w)
      | Some size =>
        if size <? 200
        then (Raise (LamblayerCreateLayerError
          "Something went wrong..., Please check the pakcage name and version again."),
              w)
        else (Ret tt, w)
      end
    end.
Proof.
  unfold verify_put, py_int.
  destruct (headers_get (headers r) "Content-Length") as [s |];
    [ | reflexivity ].
  destruct (int_of_str s) as [size |]; [ | reflexivity ].
  unfold bind, ret. destruct (size <? 200); reflexivity.
Qed.

(** The branch step by step. *)
Lemma fetch_run fuel e n d c l url w :
  fetch_and_publish fuel e n d c l url w
  = match env_http e (w_requests w) url with
    | NoAnswer => (Raise (PyError RequestException), requested w 1 [EvGet url])
    | Answer r0 =>
      if is_2xx (status_code r0) then
        match wait_for_download fuel e (text r0) 0 (polling_from w url r0) with
        | (Ret r, w3) =>
          (verify_put r ;;;
           create_layer e n d c l (S3 (s3_bucket (text r0)) (s3_key (text r0))))
            w3
        | (Raise x, w3) => (Raise x, w3)
        | (OutOfFuel, w3) => (OutOfFuel, w3)
        end
      else
        (Raise (LamblayerCreateLayerError
          "Something went wrong..., Please contact with higuchi@adansons.co.jp"),
         requested w 1 [EvGet url])
    end.
Proof.
  unfold fetch_and_publish, get_pre_signedurl, is_2xx.
  rewrite !bind_assoc. unfold bind at 1. unfold requests_get.
  assert (Hw : forall evs,
            {| w_fs := w_fs w;
               w_requests := S (w_requests w);
               w_trace := w_trace w ++ evs |} = requested w 1 evs).
  { intros evs. unfold requested. rewrite Nat.add_1_r. reflexivity. }
  destruct (env_http e (w_requests w) url) as [r0 |].
  - destruct ((200 <=? status_code r0) && (status_code r0 <? 300)).
    + rewrite bind_assoc, bind_log. unfold bind at 1, ret at 1.
      unfold after. simpl. rewrite <- app_assoc. simpl. rewrite Hw.
      unfold bind at 1. fold (polling_from w url r0).
      destruct (wait_for_download fuel e (text r0) 0 (polling_from w url r0))
        as [[r | x |] w3]; reflexivity.
    + unfold bind, raise. rewrite Hw. reflexivity.
  - rewrite Hw. reflexivity.
Qed.

Lemma never_create_layer_error_packages_json e packages_path :
  never_raises is_create_layer_error (_parse_packages_json e packages_path).
Proof.
  unfold _parse_packages_json, amp_join.
  never; first [ apply never_json_load | apply never_py_get ]; reflexivity.
Qed.

Lemma wait_emits_no_publish fuel e url elapsed w out w' req :
  wait_for_download fuel e url elapsed w = (out, w') ->
  In (EvPublish req) (w_trace w') -> In (EvPublish req) (w_trace w).
Proof.
  intros H Hin. destruct (emits_wait _ _ _ _ _ _ _ H) as [t [Ht Ft]].
  rewrite Ht in Hin. apply in_app_or in Hin. destruct Hin as [Hin | Hin].
  - exact Hin.
  - rewrite Forall_forall in Ft. destruct (Ft _ Hin).
Qed.

(** C9.  The polling loop returns only an answer with status 200; on
    any other answer it sleeps five seconds, adds five to the elapsed
    time it logs, and goes round again; while no answer has status 200
    it uses up whatever fuel it is given, so there is no last retry;
    and for every [k] it returns after [k] retries when the first
    answer with status 200 is the one after them.  In
    [fetch_and_publish] the check of [Content-Length] and the publish
    call run only on what the loop returned. *)
Theorem polling_loop :
  forall e url,
    (forall fuel elapsed w r w',
       wait_for_download fuel e url elapsed w = (Ret r, w') ->
       status_code r = 200
       /\ exists k,
            (k < fuel)%nat
            /\ still_building e url (w_requests w) k
            /\ env_http e (w_requests w + k) url = Answer r
            /\ w' = requested w (S k) (retries url elapsed k ++ [EvGet url]))
    /\ (forall fuel elapsed w r,
          env_http e (w_requests w) url = Answer r ->
          status_code r <> 200 ->
          wait_for_download (S fuel) e url elapsed w
          = wait_for_download fuel e url (elapsed + 5)
              (requested w 1
                 [EvGet url; EvSleep 5;
                  EvLog INFO [Lit "still downloading packages... ";
                              Fmt (VInt (elapsed + 5)); Lit "s elapsed"]]))
    /\ (forall elapsed w,
          (forall k, still_building e url (w_requests w) k) ->
          forall fuel,
            wait_for_download fuel e url elapsed w
            = (OutOfFuel, requested w fuel (retries url elapsed fuel)))
    /\ (forall k fuel elapsed w r,
          (k < fuel)%nat ->
          still_building e url (w_requests w) k ->
          env_http e (w_requests w + k) url = Answer r ->
          status_code r = 200 ->
          wait_for_download fuel e url elapsed w
          = (Ret r, requested w (S k) (retries url elapsed k ++ [EvGet url])))
    /\ (forall fuel n d c l w r0,
          env_http e (w_requests w) url = Answer r0 ->
          is_2xx (status_code r0) = true ->
          fetch_and_publish fuel e n d c l url w
          = match
              wait_for_download fuel e (text r0) 0 (polling_from w url r0)
            with
            | (Ret r, w3) =>
              (verify_put r ;;;
               create_layer e n d c l
                 (S3 (s3_bucket (text r0)) (s3_key (text r0)))) w3
            | (Raise x, w3) => (Raise x, w3)
            | (OutOfFuel, w3) => (OutOfFuel, w3)
            end).
Proof.
  intros e url. repeat split.
  - eapply wait_returned. eassumption.
  - eapply wait_returned. eassumption.
  - intros fuel elapsed w r Hr Hs. apply (wait_turn _ _ _ _ _ _ Hr Hs).
  - intros elapsed w Hb fuel. apply wait_goes_on, Hb.
  - intros k fuel elapsed w r. apply wait_succeeds.
  - intros fuel n d c l w r0 Hr0 H2xx. rewrite fetch_run, Hr0, H2xx.
    reflexivity.
Qed.

Lemma polling_loop_witness :
  wait_for_download 3 env_never_ready "https://bucket.s3.amazonaws.com/k" 0
    empty_world
  = (OutOfFuel,
     requested empty_world 3
       (retries "https://bucket.s3.amazonaws.com/k" 0 3)).
Proof.
  destruct (polling_loop env_never_ready "https://bucket.s3.amazonaws.com/k")
    as [_ [_ [Hnever _]]].
  apply Hnever. intros k i Hi. exists (ready 404).
  split; [ reflexivity | discriminate ].
Defined.

(** C5.  [fetch_and_publish] raises [LamblayerCreateLayerError] exactly
    when the build service answers the first request with a status
    outside 200..299, or when the answer the polling loop returned has a
    [Content-Length] that reads as an integer below 200.  In neither
    case is there a publish call.  When the [Content-Length] reads as an
    integer of at least 200 the branch goes on to the publish call and
    that error is not raised.  Reading the packages file raises no such
    error, so in the whole branch [if packages:] it comes from these two
    places only. *)
Theorem create_layer_error_iff :
  forall fuel e n d c l url w,
    (forall message w',
       fetch_and_publish fuel e n d c l url w
       = (Raise (LamblayerCreateLayerError message), w')
       <-> (exists r0,
              env_http e (w_requests w) url = Answer r0
              /\ is_2xx (status_code r0) = false
              /\ w' = requested w 1 [EvGet url]
              /\ message
                 = "Something went wrong..., Please contact with higuchi@adansons.co.jp")
           \/ (exists r0 r s size,
                 env_http e (w_requests w) url = Answer r0
                 /\ is_2xx (status_code r0) = true
                 /\ wait_for_download fuel e (text r0) 0 (polling_from w url r0)
                    = (Ret r, w')
                 /\ headers_get (headers r) "Content-Length" = Some s
                 /\ int_of_str s = Some size
                 /\ size < 200
                 /\ message
                    = "Something went wrong..., Please check the pakcage name and version again."))
    /\ (forall message w' req,
          fetch_and_publish fuel e n d c l url w
          = (Raise (LamblayerCreateLayerError message), w') ->
          In (EvPublish req) (w_trace w') -> In (EvPublish req) (w_trace w))
    /\ (forall r0 r w3 s size,
          env_http e (w_requests w) url = Answer r0 ->
          is_2xx (status_code r0) = true ->
          wait_for_download fuel e (text r0) 0 (polling_from w url r0)
          = (Ret r, w3) ->
          headers_get (headers r) "Content-Length" = Some s ->
          int_of_str s = Some size ->
          200 <= size ->
          exists out w',
            fetch_and_publish fuel e n d c l url w = (out, w')
            /\ (forall message, out <> Raise (LamblayerCreateLayerError message))
            /\ In (EvPublish (s3_request n d c l (text r0))) (w_trace w'))
    /\ (forall packages_path message w0 w',
          create_from_packages fuel e n d c l packages_path w0
          = (Raise (LamblayerCreateLayerError message), w') ->
          exists arch runtime packages no_deps w1,
            fetch_and_publish fuel e n d c l
              (build_url arch runtime packages no_deps) w1
            = (Raise (LamblayerCreateLayerError message), w')).
Proof.
  intros fuel e n d c l url w.
  assert (Hiff : forall message w',
    fetch_and_publish fuel e n d c l url w
    = (Raise (LamblayerCreateLayerError message), w')
    <-> (exists r0,
           env_http e (w_requests w) url = Answer r0
           /\ is_2xx (status_code r0) = false
           /\ w' = requested w 1 [EvGet url]
           /\ message
              = "Something went wrong..., Please contact with higuchi@adansons.co.jp")
        \/ (exists r0 r s size,
              env_http e (w_requests w) url = Answer r0
              /\ is_2xx (status_code r0) = true
              /\ wait_for_download fuel e (text r0) 0 (polling_from w url r0)
                 = (Ret r, w')
              /\ headers_get (headers r) "Content-Length" = Some s
              /\ int_of_str s = Some size
              /\ size < 200
              /\ message
                 = "Something went wrong..., Please check the pakcage name and version again.")).
  { intros message w'. rewrite fetch_run. split.
    - destruct (env_http e (w_requests w) url) as [r0 |] eqn:Hr0;
        [ | discriminate ].
      destruct (is_2xx (status_code r0)) eqn:H2xx.
      + destruct (wait_for_download fuel e (text r0) 0 (polling_from w url r0))
          as [[r | x |] w3] eqn:Hwait.
        * unfold bind at 1. rewrite verify_put_run.
          destruct (headers_get (headers r) "Content-Length") as [s |] eqn:Hh;
            [ | discriminate ].
          destruct (int_of_str s) as [size |] eqn:Hi; [ | discriminate ].
          destruct (size <? 200) eqn:Hlt.
          -- intros H. inversion H. subst. right.
             exists r0, r, s, size. apply Z.ltb_lt in Hlt.
             repeat split; try assumption; reflexivity.
          -- rewrite create_layer_run. cbv zeta.
             destruct (env_publish e _); discriminate.
        * intros H. inversion H. subst.
          assert (Hn : never_raises is_create_layer_error
                         (wait_for_download fuel e (text r0) 0)).
          { clear. generalize 0. induction fuel as [| fuel IH]; intros z; simpl.
            - intros w x w' H. discriminate H.
            - never; [ apply never_requests_get; reflexivity | apply IH ]. }
          specialize (Hn _ _ _ Hwait). discriminate Hn.
        * discriminate.
      + intros H. inversion H. subst. left. exists r0.
        repeat split; try assumption; reflexivity.
    - intros [[r0 [Hr0 [H2xx [Hw Hm]]]]
             | [r0 [r [s [size [Hr0 [H2xx [Hwait [Hh [Hi [Hlt Hm]]]]]]]]]]].
      + rewrite Hr0, H2xx. subst. reflexivity.
      + rewrite Hr0, H2xx, Hwait. unfold bind at 1.
        rewrite verify_put_run, Hh, Hi.
        apply Z.ltb_lt in Hlt. rewrite Hlt. subst. reflexivity. }
  split; [ exact Hiff | ]. split; [ | split ].
  - intros message w' req H Hin. apply Hiff in H.
    destruct H as [[r0 [Hr0 [H2xx [Hw Hm]]]]
                  | [r0 [r [s [size [Hr0 [H2xx [Hwait [Hh [Hi [Hlt Hm]]]]]]]]]]].
    + subst w'. simpl in Hin. apply in_app_or in Hin.
      destruct Hin as [Hin | [Hin | []]]; [ exact Hin | discriminate ].
    + apply (wait_emits_no_publish _ _ _ _ _ _ _ _ Hwait) in Hin.
      simpl in Hin. apply in_app_or in Hin.
      destruct Hin as [Hin | [Hin | [Hin | []]]];
        [ exact Hin | discriminate | discriminate ].
  - intros r0 r w3 s size Hr0 H2xx Hwait Hh Hi Hge.
    rewrite fetch_run, Hr0, H2xx, Hwait. unfold bind at 1.
    rewrite verify_put_run, Hh, Hi.
    assert (Hlt : (size <? 200) = false) by (apply Z.ltb_ge; exact Hge).
    rewrite Hlt, create_layer_run. cbv zeta. fold (s3_request n d c l (text r0)).
    destruct (env_publish e (s3_request n d c l (text r0))) as [arn |];
      do 2 eexists; (split; [ reflexivity | ]);
      (split; [ intros message; discriminate | ]);
      simpl; apply in_or_app; right; simpl; tauto.
  - intros packages_path message w0 w'. unfold create_from_packages.
    rewrite bind_log. unfold bind at 1.
    destruct (_parse_packages_json e packages_path
                (after w0 [EvLog INFO [Lit "creating zip archive"]]))
      as [[[[[arch runtime] packages] no_deps] | x |] w1] eqn:E.
    + rewrite !bind_log. intros H.
      exists arch, runtime, packages, no_deps. eexists. exact H.
    + intros H. inversion H. subst.
      pose proof (never_create_layer_error_packages_json _ _ _ _ _ E) as Hn.
      discriminate Hn.
    + discriminate.
Qed.

Lemma create_layer_error_iff_witness :
  (* the build service answers 404 *)
  fetch_and_publish 5 (env_of [] [ready 404]) VNone VNone VNone VNone
    "https://layerzip.higuchi.work/x86_64/py38/a&b&c?no-deps=0" empty_world
  = (Raise (LamblayerCreateLayerError
       "Something went wrong..., Please contact with higuchi@adansons.co.jp"),
     requested empty_world 1
       [EvGet "https://layerzip.higuchi.work/x86_64/py38/a&b&c?no-deps=0"])
  (* the artifact has 150 bytes *)
  /\ (exists w',
        fetch_and_publish 5
          (env_of [] [presigned; built [("Content-Length", "150")]])
          VNone VNone VNone VNone
          "https://layerzip.higuchi.work/x86_64/py38/a&b&c?no-deps=0"
          empty_world
        = (Raise (LamblayerCreateLayerError
             "Something went wrong..., Please check the pakcage name and version again."),
           w'))
  (* the artifact has 300 bytes *)
  /\ (exists out w',
        fetch_and_publish 5
          (env_of [] [presigned; built [("Content-Length", "300")]])
          VNone VNone VNone VNone
          "https://layerzip.higuchi.work/x86_64/py38/a&b&c?no-deps=0"
          empty_world
        = (out, w')
        /\ In (EvPublish (s3_request VNone VNone VNone VNone (text presigned)))
             (w_trace w')).
Proof.
  split; [ | split ].
  - destruct (create_layer_error_iff 5 (env_of [] [ready 404])
                VNone VNone VNone VNone
                "https://layerzip.higuchi.work/x86_64/py38/a&b&c?no-deps=0"
                empty_world) as [Hiff _].
    apply Hiff. left. exists (ready 404). repeat split; reflexivity.
  - destruct (create_layer_error_iff 5
                (env_of [] [presigned; built [("Content-Length", "150")]])
                VNone VNone VNone VNone
                "https://layerzip.higuchi.work/x86_64/py38/a&b&c?no-deps=0"
                empty_world) as [Hiff _].
    eexists. apply Hiff. right.
    exists presigned, (built [("Content-Length", "150")]), "150", 150.
    repeat split; try reflexivity.
  - destruct (create_layer_error_iff 5
                (env_of [] [presigned; built [("Content-Length", "300")]])
                VNone VNone VNone VNone
                "https://layerzip.higuchi.work/x86_64/py38/a&b&c?no-deps=0"
                empty_world) as [_ [_ [Hgo _]]].
    destruct (Hgo presigned (built [("Content-Length", "300")]) _ "300" 300
                eq_refl eq_refl eq_refl eq_refl eq_refl) as [out [w' [H [_ Hin]]]].
    + lia.
    + exists out, w'. split; [ exact H | exact Hin ].
Defined.

(** C10.  An answer without [Content-Length] makes the size check
    raise [TypeError], which is not a [LamblayerCreateLayerError]; the
    check returns or raises [LamblayerCreateLayerError] exactly when the
    header is there and reads as an integer; and in [fetch_and_publish]
    the [TypeError] ends the branch in the world the polling loop
    left, without a publish call. *)
Theorem missing_content_length :
  (forall r w,
     headers_get (headers r) "Content-Length" = None ->
     verify_put r w = (Raise (PyError TypeError), w))
  /\ (forall r w,
        (exists s size,
           headers_get (headers r) "Content-Length" = Some s
           /\ int_of_str s = Some size)
        <-> (verify_put r w = (Ret tt, w)
             \/ exists message,
                  verify_put r w
                  = (Raise (LamblayerCreateLayerError message), w)))
  /\ (forall fuel e n d c l url w r0 r w3 req,
        env_http e (w_requests w) url = Answer r0 ->
        is_2xx (status_code r0) = true ->
        wait_for_download fuel e (text r0) 0 (polling_from w url r0)
        = (Ret r, w3) ->
        headers_get (headers r) "Content-Length" = None ->
        fetch_and_publish fuel e n d c l url w = (Raise (PyError TypeError), w3)
        /\ (In (EvPublish req) (w_trace w3) -> In (EvPublish req) (w_trace w))).
Proof.
  split; [ | split ].
  - intros r w H. rewrite verify_put_run, H. reflexivity.
  - intros r w. rewrite verify_put_run. split.
    + intros [s [size [Hh Hi]]]. rewrite Hh, Hi.
      destruct (size <? 200); [ right; eexists | left ]; reflexivity.
    + destruct (headers_get (headers r) "Content-Length") as [s |].
      * destruct (int_of_str s) as [size |] eqn:Hi.
        -- intros _. exists s, size. split; [ reflexivity | exact Hi ].
        -- intros [H | [message H]]; discriminate H.
      * intros [H | [message H]]; discriminate H.
  - intros fuel e n d c l url w r0 r w3 req Hr0 H2xx Hwait Hh. split.
    + rewrite fetch_run, Hr0, H2xx, Hwait. unfold bind at 1.
      rewrite verify_put_run, Hh. reflexivity.
    + intros Hin.
      apply (wait_emits_no_publish _ _ _ _ _ _ _ _ Hwait) in Hin.
      simpl in Hin. apply in_app_or in Hin.
      destruct Hin as [Hin | [Hin | [Hin | []]]];
        [ exact Hin | discriminate | discriminate ].
Qed.

Lemma missing_content_length_witness :
  fetch_and_publish 5
    (env_of [] [presigned; built [("Content-Type", "application/zip")]])
    VNone VNone VNone VNone
    "https://layerzip.higuchi.work/x86_64/py38/a&b&c?no-deps=0" empty_world
  = (Raise (PyError TypeError),
     requested
       (polling_from empty_world
          "https://layerzip.higuchi.work/x86_64/py38/a&b&c?no-deps=0" presigned)
       1 [EvGet "https://bucket.s3.amazonaws.com/k1/k2"]).
Proof.
  destruct missing_content_length as [_ [_ Hrun]].
  apply (Hrun 5%nat
           (env_of [] [presigned; built [("Content-Type", "application/zip")]])
           VNone VNone VNone VNone
           "https://layerzip.higuchi.work/x86_64/py38/a&b&c?no-deps=0"
           empty_world presigned
           (built [("Content-Type", "application/zip")]) _
           (s3_request VNone VNone VNone VNone "")
           eq_refl eq_refl eq_refl eq_refl).
Defined.

(** ** Path strings *)

















(** ** The file tree *)

Lemma path_eqb_eq p : forall q, path_eqb p q = true <-> p = q.
Proof.
  induction p as [| a p IH]; intros [| b q]; simpl; split; intros H;
    try reflexivity; try discriminate.
  - apply andb_true_iff in H. destruct H as [Hab Hpq].
    apply String.eqb_eq in Hab. apply IH in Hpq. subst. reflexivity.
  - inversion H. subst. rewrite String.eqb_refl. apply IH. reflexivity.
Qed.

Lemma path_eqb_refl p : path_eqb p p = true.
Proof. apply path_eqb_eq. reflexivity. Qed.




















(** What is left after the removal is nowhere at or below [root]. *)
Lemma remove_tree_gone root f : fresh root (remove_tree root f) = true.
Proof.
  induction f as [| [q n] f IH]; simpl; [ reflexivity | ].
  destruct (is_below root q) eqn:E; [ exact IH | ].
  simpl. rewrite E. exact IH.
Qed.





(** ** [os.makedirs] *)








Lemma chain_find p x xs : fs_find (chain p (x :: xs)) (p ++ [x]) = Some NDir.
Proof. simpl. rewrite path_eqb_refl. reflexivity. Qed.

(** ** [shutil.copytree] *)





Lemma w_fs_after w evs : w_fs (after w evs) = w_fs w.
Proof. reflexivity. Qed.





(** ** [_create_ziparchive]: the scratch directory *)

Lemma rmtree_returned e dir w w' :
  rmtree e dir w = (Ret tt, w') ->
  w_fs w' = remove_tree (resolve (env_cwd e) dir) (w_fs w).
Proof.
  unfold rmtree. rewrite bind_emit. unfold bind at 1, get_fs at 1.
  rewrite !w_fs_after.
  destruct (fs_lookup (w_fs w) (resolve (env_cwd e) dir)) as [[| rd data] |];
    try discriminate.
  destruct (env_fault e OpRmtree); [ discriminate | ].
  intros H. inversion H. reflexivity.
Qed.

(** C1, as the code has it.  When [_create_ziparchive] returns, nothing
    of the file tree is at or below the scratch directory.  When the
    copy, the archiving or the read of the archive raises, the call
    raises the same exception in the world that step left: the removal
    of the scratch directory is not run. *)
Theorem create_ziparchive_cleanup :
  forall e src wrap_dir1 wrap_dir2 w,
    let temp_dir := env_timestamp_hash e in
    let copy_src_dir :=
      os_path_join temp_dir ["rawlayer"; wrap_dir1; wrap_dir2] in
    let temp_layer_dir := os_path_join temp_dir ["rawlayer"] in
    let base_name := os_path_join temp_dir ["ziplayer"] in
    (forall zipfile w',
       _create_ziparchive e src wrap_dir1 wrap_dir2 w = (Ret zipfile, w') ->
       fresh (scratch e) (w_fs w') = true)
    /\ (forall x w1,
          copytree e src copy_src_dir w = (Raise x, w1) ->
          _create_ziparchive e src wrap_dir1 wrap_dir2 w = (Raise x, w1))
    /\ (forall w1 x w2,
          copytree e src copy_src_dir w = (Ret tt, w1) ->
          make_archive e base_name temp_layer_dir w1 = (Raise x, w2) ->
          _create_ziparchive e src wrap_dir1 wrap_dir2 w = (Raise x, w2))
    /\ (forall w1 w2 x w3,
          copytree e src copy_src_dir w = (Ret tt, w1) ->
          make_archive e base_name temp_layer_dir w1 = (Ret tt, w2) ->
          read_bytes e (base_name ++ ".zip")%string w2 = (Raise x, w3) ->
          _create_ziparchive e src wrap_dir1 wrap_dir2 w = (Raise x, w3)).
Proof.
  intros e src wrap_dir1 wrap_dir2 w temp_dir copy_src_dir temp_layer_dir
    base_name.
  unfold _create_ziparchive. fold temp_dir copy_src_dir temp_layer_dir base_name.
  cbv zeta. repeat split.
  - intros zipfile w'. unfold bind at 1.
    destruct (copytree e src copy_src_dir w) as [[[] | x |] w1];
      try discriminate.
    unfold bind at 1.
    destruct (make_archive e base_name temp_layer_dir w1) as [[[] | x |] w2];
      try discriminate.
    unfold bind at 1.
    destruct (read_bytes e (base_name ++ ".zip")%string w2)
      as [[data | x |] w3]; try discriminate.
    unfold bind at 1.
    destruct (rmtree e temp_dir w3) as [[[] | x |] w4] eqn:Hrm;
      try discriminate.
    rewrite bind_log. unfold ret. intros H. inversion H. subst.
    rewrite w_fs_after, (rmtree_returned _ _ _ _ Hrm).
    apply remove_tree_gone.
  - intros x w1 H. apply bind_raised, H.
  - intros w1 x w2 H1 H2. rewrite (bind_returned _ _ _ _ _ H1).
    apply bind_raised, H2.
  - intros w1 w2 x w3 H1 H2 H3. rewrite (bind_returned _ _ _ _ _ H1).
    rewrite (bind_returned _ _ _ _ _ H2). apply bind_raised, H3.
Qed.

Lemma create_ziparchive_cleanup_witness :
  fresh (scratch quiet_env)
    (w_fs (snd (_create_ziparchive quiet_env "lib" "python" ""
                  (world_of lib_tree)))) = true.
Proof.
  destruct (create_ziparchive_cleanup quiet_env "lib" "python" ""
              (world_of lib_tree)) as [Hret _].
  destruct (_create_ziparchive quiet_env "lib" "python" "" (world_of lib_tree))
    as [out w'] eqn:E.
  assert (Hout : out = Ret (env_zip quiet_env [])).
  { apply (f_equal fst) in E. vm_compute in E. symmetry. exact E. }
  subst out. exact (Hret _ _ eq_refl).
Defined.

(** C1, as the specification words it, fails: a source directory with
    a file that cannot be read makes [copytree] raise after it has made
    the scratch directory, which had not existed before and is still
    there when the exception leaves [_create_ziparchive]; [rmtree] was
    never called. *)
Lemma create_ziparchive_leaks_scratch :
  fs_lookup locked_tree (scratch quiet_env) = None
  /\ fst (_create_ziparchive quiet_env "lib" "python" "" (world_of locked_tree))
     = Raise (PyError ShutilError)
  /\ fs_lookup
       (w_fs (snd (_create_ziparchive quiet_env "lib" "python" ""
                     (world_of locked_tree))))
       (scratch quiet_env)
     = Some NDir
  /\ existsb is_rmtree
       (w_trace (snd (_create_ziparchive quiet_env "lib" "python" ""
                        (world_of locked_tree))))
     = false.
Proof. repeat split. Qed.

(** ** [_create_ziparchive]: the layout of the archive *)










(** ** Two whole runs of [create] *)

(** From a packages file: two polls find the artifact not ready, the
    third does, and the layer is published from the bucket and key of
    the pre-signed URL. *)
Example create_from_packages_run :
  let run :=
    create 10 env_remote (Some "packages.json") None "python" "" "layer.json"
      empty_world in
  fst run = Ret tt
  /\ w_requests (snd run) = 4%nat
  /\ filter is_io (w_trace (snd run))
     = [EvOpen "layer.json";
        EvOpen "packages.json";
        EvGet "https://layerzip.higuchi.work/x86_64/py38/a&b&c?no-deps=0";
        EvGet "https://bucket.s3.amazonaws.com/k1/k2";
        EvSleep 5;
        EvGet "https://bucket.s3.amazonaws.com/k1/k2";
        EvSleep 5;
        EvGet "https://bucket.s3.amazonaws.com/k1/k2";
        EvPublish
          {| LayerName := VStr "numpy";
             Description := VStr "numpy for python3.8";
             Content := S3 "bucket" "k1/k2";
             CompatibleRuntimes := VList [VStr "python3.8"];
             LicenseInfo := VStr "BSD" |}].
Proof. repeat split. Qed.

(** From a source directory: the tree is copied under [python/],
    archived and read, the scratch directory is removed, and the layer
    is published from the bytes. *)
Example create_from_src_run :
  let run :=
    create 0 env_remote None (Some "lib") "python" "" "layer.json"
      (world_of lib_tree) in
  fst run = Ret tt
  /\ w_fs (snd run) = lib_tree
  /\ filter is_io (w_trace (snd run))
     = [EvOpen "layer.json";
        EvCopytree "lib" "9f86d081884c7d65/rawlayer/python/";
        EvMakeArchive "9f86d081884c7d65/ziplayer" "9f86d081884c7d65/rawlayer";
        EvRead "9f86d081884c7d65/ziplayer.zip";
        EvRmtree "9f86d081884c7d65";
        EvPublish
          {| LayerName := VStr "numpy";
             Description := VStr "numpy for python3.8";
             Content := ZipFile [Byte.x61; Byte.x62];
             CompatibleRuntimes := VList [VStr "python3.8"];
             LicenseInfo := VStr "BSD" |}].
Proof. repeat split. Qed.

(** * Further properties *)

(** ** What a run leaves alone *)

Lemma keeps_ret {A X} (proj : world -> X) (a : A) : keeps proj (ret a).
Proof. intros w out w' H. inversion H. reflexivity. Qed.

Lemma keeps_raise {A X} (proj : world -> X) (x : exn) :
  keeps proj (@raise A x).
Proof. intros w out w' H. inversion H. reflexivity. Qed.

Lemma keeps_get_fs {X} (proj : world -> X) : keeps proj get_fs.
Proof. intros w out w' H. inversion H. reflexivity. Qed.

Lemma keeps_bind {A B X} (proj : world -> X) (m : M A) (k : A -> M B) :
  keeps proj m -> (forall a, keeps proj (k a)) -> keeps proj (bind m k).
Proof.
  intros Hm Hk w out w' H. unfold bind in H.
  destruct (m w) as [[a | y | ] w1] eqn:E.
  - rewrite (Hk _ _ _ _ H). eapply Hm, E.
  - inversion H. subst. eapply Hm, E.
  - inversion H. subst. eapply Hm, E.
Qed.

Lemma keeps_emit {X} (proj : world -> X) ev :
  (forall w, proj (after w [ev]) = proj w) -> keeps proj (emit ev).
Proof. intros Hp w out w' H. inversion H. apply Hp. Qed.

Lemma keeps_if {A X} (proj : world -> X) (b : bool) (m1 m2 : M A) :
  keeps proj m1 -> keeps proj m2 -> keeps proj (if b then m1 else m2).
Proof. destruct b; auto. Qed.

Lemma keeps_requests_set_fs f : keeps w_requests (set_fs f).
Proof. intros w out w' H. inversion H. reflexivity. Qed.

Lemma keeps_fs_requests_get e url : keeps w_fs (requests_get e url).
Proof.
  intros w out w' H. unfold requests_get in H.
  destruct (env_http e (w_requests w) url); inversion H; reflexivity.
Qed.

Ltac kept :=
  repeat match goal with
    | |- keeps _ (bind _ _) => apply keeps_bind; [ | intros ? ]
    | |- keeps _ (ret _) => apply keeps_ret
    | |- keeps _ (raise _) => apply keeps_raise
    | |- keeps _ (log _ _) => apply keeps_emit; reflexivity
    | |- keeps _ (emit _) => apply keeps_emit; reflexivity
    | |- keeps _ get_fs => apply keeps_get_fs
    | |- keeps w_requests (set_fs _) => apply keeps_requests_set_fs
    | |- keeps w_fs (requests_get _ _) => apply keeps_fs_requests_get
    | |- keeps _ (if _ then _ else _) => apply keeps_if
    | |- keeps _ (let _ := _ in _) => cbv zeta
    | |- keeps _ (match ?x with _ => _ end) => destruct x
    end.

Lemma if_set_unset option body :
  truthy option = false -> if_set option body = ret tt.
Proof.
  intros H. unfold if_set. destruct option as [s |]; [ | reflexivity ].
  rewrite H. reflexivity.
Qed.

Lemma keeps_if_set {X} (proj : world -> X) option body :
  (forall s, keeps proj (body s)) -> keeps proj (if_set option body).
Proof.
  intros Hb. unfold if_set. destruct option as [s |]; [ | apply keeps_ret ].
  destruct (truthy (Some s)); [ apply Hb | apply keeps_ret ].
Qed.

Lemma emits_if_set P option body :
  (forall s, emits_only P (body s)) -> emits_only P (if_set option body).
Proof.
  intros Hb. unfold if_set. destruct option as [s |]; [ | apply emits_ret ].
  destruct (truthy (Some s)); [ apply Hb | apply emits_ret ].
Qed.

(** The two parsers only open their file. *)
Lemma emits_layer_json (P : event -> Prop) e layer_path :
  P (EvOpen layer_path) ->
  emits_only P (_parse_create_layer_json e layer_path).
Proof.
  intros Hp. unfold _parse_create_layer_json, json_load, py_get.
  emits; exact Hp.
Qed.

Lemma emits_packages_json (P : event -> Prop) e packages_path :
  P (EvOpen packages_path) ->
  emits_only P (_parse_packages_json e packages_path).
Proof.
  intros Hp. unfold _parse_packages_json, json_load, py_get, amp_join.
  emits; exact Hp.
Qed.

Lemma keeps_layer_json {X} (proj : world -> X) e layer_path :
  (forall w ev, proj (after w [ev]) = proj w) ->
  keeps proj (_parse_create_layer_json e layer_path).
Proof.
  intros Hp. unfold _parse_create_layer_json, json_load, py_get.
  repeat first [ apply keeps_emit; intros; apply Hp | progress kept ].
Qed.

Lemma keeps_packages_json {X} (proj : world -> X) e packages_path :
  (forall w ev, proj (after w [ev]) = proj w) ->
  keeps proj (_parse_packages_json e packages_path).
Proof.
  intros Hp. unfold _parse_packages_json, json_load, py_get, amp_join.
  repeat first [ apply keeps_emit; intros; apply Hp | progress kept ].
Qed.



Lemma emits_create_layer (P : event -> Prop) e n d c l content :
  (forall lvl msg, P (EvLog lvl msg)) ->
  (forall req, P (EvPublish req)) ->
  emits_only P (create_layer e n d c l content).
Proof.
  intros Hlog Hpub. unfold create_layer, publish_layer_version.
  emits; first [ apply Hlog | apply Hpub ].
Qed.

Lemma keeps_create_layer {X} (proj : world -> X) e n d c l content :
  (forall w ev, proj (after w [ev]) = proj w) ->
  keeps proj (create_layer e n d c l content).
Proof.
  intros Hp. unfold create_layer, publish_layer_version.
  repeat first [ apply keeps_emit; intros; apply Hp | progress kept ].
Qed.

Lemma emits_if_set_unset P option body :
  truthy option = false -> emits_only P (if_set option body).
Proof. intros H. rewrite (if_set_unset _ _ H). apply emits_ret. Qed.

Lemma keeps_if_set_unset {X} (proj : world -> X) option body :
  truthy option = false -> keeps proj (if_set option body).
Proof. intros H. rewrite (if_set_unset _ _ H). apply keeps_ret. Qed.

Lemma keeps_fs_wait fuel e url elapsed :
  keeps w_fs (wait_for_download fuel e url elapsed).
Proof.
  revert elapsed. induction fuel as [| fuel IH]; intros elapsed; simpl.
  - intros w out w' H. inversion H. reflexivity.
  - kept. apply IH.
Qed.

Lemma is_polling_not_disk url ev : is_polling url ev -> is_disk ev = false.
Proof. destruct ev; simpl; try reflexivity; intros []. Qed.

(** The branch that asks the build service never touches the file
    tree. *)
Lemma emits_fetch_no_disk fuel e n d c l url :
  emits_only (fun ev => is_disk ev = false)
    (fetch_and_publish fuel e n d c l url).
Proof.
  unfold fetch_and_publish, get_pre_signedurl, verify_put, py_int.
  emits; try reflexivity.
  - eapply emits_weaken; [ apply is_polling_not_disk | apply emits_wait ].
  - apply emits_create_layer; reflexivity.
Qed.

Lemma keeps_fs_fetch fuel e n d c l url :
  keeps w_fs (fetch_and_publish fuel e n d c l url).
Proof.
  unfold fetch_and_publish, get_pre_signedurl, verify_put, py_int.
  kept.
  - apply keeps_fs_wait.
  - apply keeps_create_layer. reflexivity.
Qed.



(** X2.  [create] called without a source path never touches the file
    tree: whatever the outcome, the tree is as it was and no copy,
    archive, read or removal is in what the run added to the trace. *)
Theorem create_from_packages_keeps_tree :
  forall fuel e packages src wrap_dir1 wrap_dir2 layer_path w out w',
    truthy src = false ->
    create fuel e packages src wrap_dir1 wrap_dir2 layer_path w = (out, w') ->
    w_fs w' = w_fs w
    /\ exists t,
         w_trace w' = w_trace w ++ t
         /\ Forall (fun ev => is_disk ev = false) t.
Proof.
  intros fuel e packages src wrap_dir1 wrap_dir2 layer_path w out w' Hs Hrun.
  split.
  - revert w out w' Hrun.
    change (keeps w_fs
              (create fuel e packages src wrap_dir1 wrap_dir2 layer_path)).
    unfold create. kept.
    + apply keeps_layer_json. reflexivity.
    + apply keeps_if_set_unset, Hs.
    + apply keeps_if_set. intros s. unfold create_from_packages. kept.
      * apply keeps_packages_json. reflexivity.
      * apply keeps_fs_fetch.
  - revert w out w' Hrun.
    change (emits_only (fun ev => is_disk ev = false)
              (create fuel e packages src wrap_dir1 wrap_dir2 layer_path)).
    unfold create. emits; try reflexivity.
    + apply emits_layer_json. reflexivity.
    + apply emits_if_set_unset, Hs.
    + apply emits_if_set. intros s. unfold create_from_packages.
      emits; try reflexivity.
      * apply emits_packages_json. reflexivity.
      * apply emits_fetch_no_disk.
Qed.

Lemma create_from_packages_keeps_tree_witness :
  w_fs
    (snd (create 10 env_remote (Some "packages.json") None "python" ""
            "layer.json" (world_of lib_tree)))
  = lib_tree.
Proof.
  exact (proj1 (create_from_packages_keeps_tree 10 env_remote
                  (Some "packages.json") None "python" "" "layer.json"
                  (world_of lib_tree) _ _ eq_refl (surjective_pairing _))).
Defined.

(** ** More on the configuration files *)

Lemma layer_json_error e layer_path w err :
  config_error (env_config e layer_path) = Some err ->
  _parse_create_layer_json e layer_path w
  = (Raise (PyError err), after w [EvOpen layer_path]).
Proof.
  intros H. unfold _parse_create_layer_json, json_load.
  rewrite bind_assoc, bind_emit.
  destruct (env_config e layer_path) as [| | v]; simpl in H.
  - inversion H. reflexivity.
  - inversion H. reflexivity.
  - destruct v; inversion H; reflexivity.
Qed.

Lemma packages_json_error e packages_path w err :
  config_error (env_config e packages_path) = Some err ->
  _parse_packages_json e packages_path w
  = (Raise (PyError err), after w [EvOpen packages_path]).
Proof.
  intros H. unfold _parse_packages_json, json_load.
  rewrite bind_assoc, bind_emit.
  destruct (env_config e packages_path) as [| | v]; simpl in H.
  - inversion H. reflexivity.
  - inversion H. reflexivity.
  - destruct v; inversion H; reflexivity.
Qed.

(** X3.  A configuration file that is missing, that is not JSON, or
    whose JSON is not an object makes either parser raise
    [FileNotFoundError], [JSONDecodeError] or [AttributeError], having
    done nothing but open the file. *)
Theorem config_file_errors :
  forall e file w err,
    config_error (env_config e file) = Some err ->
    _parse_create_layer_json e file w
    = (Raise (PyError err), after w [EvOpen file])
    /\ _parse_packages_json e file w
       = (Raise (PyError err), after w [EvOpen file]).
Proof.
  intros e file w err H. split.
  - apply layer_json_error, H.
  - apply packages_json_error, H.
Qed.

Lemma config_file_errors_witness :
  _parse_create_layer_json
    (env_of [("layer.json", VList [VStr "numpy"])] []) "layer.json" empty_world
  = (Raise (PyError AttributeError), after empty_world [EvOpen "layer.json"])
  /\ _parse_packages_json (env_of [] []) "packages.json" empty_world
     = (Raise (PyError FileNotFoundError),
        after empty_world [EvOpen "packages.json"]).
Proof.
  split.
  - exact (proj1 (config_file_errors
                    (env_of [("layer.json", VList [VStr "numpy"])] [])
                    "layer.json" empty_world AttributeError eq_refl)).
  - exact (proj2 (config_file_errors (env_of [] []) "packages.json"
                    empty_world FileNotFoundError eq_refl)).
Defined.

(** What [_parse_packages_json] does with a JSON object. *)
Lemma parse_packages_json_object e packages_path kvs w :
  env_config e packages_path = Parsed (VDict kvs) ->
  _parse_packages_json e packages_path w
  = match dict_get_or kvs "Arch" VNone with
    | VStr arch =>
      match dict_get_or kvs "Runtime" VNone with
      | VStr runtime =>
        if negb (is_str_or_list (dict_get_or kvs "Packages" VNone))
        then (Raise (ParamValidationError "Packages"
                       (dict_get_or kvs "Packages" VNone) [T_str; T_list]),
              after w [EvOpen packages_path])
        else
          match as_int (dict_get_or kvs "No_deps" (VInt 0)) with
          | None =>
            (Raise (ParamValidationError "No_deps"
                      (dict_get_or kvs "No_deps" (VInt 0)) [T_int]),
             after w [EvOpen packages_path])
          | Some no_deps =>
            match packages_text (dict_get_or kvs "Packages" VNone) with
            | Some packages =>
              (Ret (arch, runtime, packages, no_deps),
               after w [EvOpen packages_path])
            | None =>
              (Raise (PyError TypeError), after w [EvOpen packages_path])
            end
          end
      | runtime =>
        (Raise (ParamValidationError "Runtime" runtime [T_str]),
         after w [EvOpen packages_path])
      end
    | arch =>
      (Raise (ParamValidationError "Arch" arch [T_str]),
       after w [EvOpen packages_path])
    end.
Proof.
  intros H. unfold _parse_packages_json, bind.
  rewrite (json_load_parsed _ _ _ _ H). unfold py_get, ret.
  destruct (dict_get_or kvs "Arch" VNone); try reflexivity.
  destruct (dict_get_or kvs "Runtime" VNone); try reflexivity.
  destruct (dict_get_or kvs "Packages" VNone) as [| | | | ptext | pitems |];
    try reflexivity.
  - simpl. destruct (as_int (dict_get_or kvs "No_deps" (VInt 0)));
      reflexivity.
  - simpl. destruct (as_int (dict_get_or kvs "No_deps" (VInt 0)));
      [ | reflexivity ].
    unfold amp_join. destruct (strs_of pitems); reflexivity.
Qed.

(** X4.  On a packages file that holds a JSON object,
    [_parse_packages_json] returns exactly when ["Arch"] and
    ["Runtime"] are strings, ["Packages"] is a string or a list of
    strings, and ["No_deps"] is absent or an integer (a boolean counts
    as one).  It then returns the two strings, the packages as one
    string, and the flag, 0 when absent. *)
Theorem parse_packages_json_returns_iff :
  forall e packages_path kvs w result w',
    env_config e packages_path = Parsed (VDict kvs) ->
    _parse_packages_json e packages_path w = (Ret result, w')
    <-> exists arch runtime packages no_deps,
          dict_get_or kvs "Arch" VNone = VStr arch
          /\ dict_get_or kvs "Runtime" VNone = VStr runtime
          /\ packages_text (dict_get_or kvs "Packages" VNone) = Some packages
          /\ as_int (dict_get_or kvs "No_deps" (VInt 0)) = Some no_deps
          /\ result = (arch, runtime, packages, no_deps)
          /\ w' = after w [EvOpen packages_path].
Proof.
  intros e packages_path kvs w result w' H.
  rewrite (parse_packages_json_object _ _ _ _ H). split.
  - destruct (dict_get_or kvs "Arch" VNone) as [| | | | arch | |];
      try discriminate.
    destruct (dict_get_or kvs "Runtime" VNone) as [| | | | runtime | |];
      try discriminate.
    destruct (is_str_or_list (dict_get_or kvs "Packages" VNone));
      [ | discriminate ].
    simpl negb. cbv iota.
    destruct (as_int (dict_get_or kvs "No_deps" (VInt 0))) as [no_deps |];
      [ | discriminate ].
    destruct (packages_text (dict_get_or kvs "Packages" VNone))
      as [packages |]; [ | discriminate ].
    intros Hrun. inversion Hrun. subst.
    exists arch, runtime, packages, no_deps. repeat split; reflexivity.
  - intros [arch [runtime [packages [no_deps [Ha [Hr [Hp [Hn [Hres Hw]]]]]]]]].
    rewrite Ha, Hr, Hn, Hp. subst.
    assert (Hs : is_str_or_list (dict_get_or kvs "Packages" VNone) = true).
    { destruct (dict_get_or kvs "Packages" VNone); try discriminate Hp;
        reflexivity. }
    rewrite Hs. reflexivity.
Qed.

Lemma parse_packages_json_returns_iff_witness :
  _parse_packages_json
    (env_of [("packages.json",
              VDict [("Arch", VStr "x86_64"); ("Runtime", VStr "py38");
                     ("Packages", VStr "numpy==1.21")])] [])
    "packages.json" empty_world
  = (Ret ("x86_64", "py38", "numpy==1.21", IInt 0),
     after empty_world [EvOpen "packages.json"]).
Proof.
  apply (parse_packages_json_returns_iff
           (env_of [("packages.json",
                     VDict [("Arch", VStr "x86_64"); ("Runtime", VStr "py38");
                            ("Packages", VStr "numpy==1.21")])] [])
           "packages.json"
           [("Arch", VStr "x86_64"); ("Runtime", VStr "py38");
            ("Packages", VStr "numpy==1.21")]
           empty_world _ _ eq_refl).
  exists "x86_64", "py38", "numpy==1.21", (IInt 0).
  repeat split; reflexivity.
Defined.

(** X5.  A ["Packages"] list with an item that is not a string passes
    the type checks and then makes the join raise [TypeError], not a
    [LamblayerParamValidationError]. *)
Theorem packages_list_item_not_str :
  forall e packages_path kvs arch runtime xs no_deps w,
    env_config e packages_path = Parsed (VDict kvs) ->
    dict_get_or kvs "Arch" VNone = VStr arch ->
    dict_get_or kvs "Runtime" VNone = VStr runtime ->
    dict_get_or kvs "Packages" VNone = VList xs ->
    strs_of xs = None ->
    as_int (dict_get_or kvs "No_deps" (VInt 0)) = Some no_deps ->
    _parse_packages_json e packages_path w
    = (Raise (PyError TypeError), after w [EvOpen packages_path]).
Proof.
  intros e packages_path kvs arch runtime xs no_deps w H Ha Hr Hp Hx Hn.
  rewrite (parse_packages_json_object _ _ _ _ H), Ha, Hr, Hn, Hp.
  simpl. rewrite Hx. reflexivity.
Qed.

Lemma packages_list_item_not_str_witness :
  _parse_packages_json
    (env_of [("packages.json",
              VDict [("Arch", VStr "x86_64"); ("Runtime", VStr "py38");
                     ("Packages", VList [VStr "numpy"; VInt 3])])] [])
    "packages.json" empty_world
  = (Raise (PyError TypeError), after empty_world [EvOpen "packages.json"]).
Proof.
  exact (packages_list_item_not_str
           (env_of [("packages.json",
                     VDict [("Arch", VStr "x86_64"); ("Runtime", VStr "py38");
                            ("Packages", VList [VStr "numpy"; VInt 3])])] [])
           "packages.json"
           [("Arch", VStr "x86_64"); ("Runtime", VStr "py38");
            ("Packages", VList [VStr "numpy"; VInt 3])]
           "x86_64" "py38" [VStr "numpy"; VInt 3] (IInt 0) empty_world
           eq_refl eq_refl eq_refl eq_refl eq_refl eq_refl).
Defined.

(** Once the packages file is parsed, the branch requests the URL
    built from it. *)
Lemma from_packages_requests_url fuel e n d c l packages_path w
      arch runtime packages no_deps :
  (forall w0,
     _parse_packages_json e packages_path w0
     = (Ret (arch, runtime, packages, no_deps),
        after w0 [EvOpen packages_path])) ->
  In (EvGet (build_url arch runtime packages no_deps))
     (w_trace (snd (create_from_packages fuel e n d c l packages_path w))).
Proof.
  intros Hparse. unfold create_from_packages.
  rewrite bind_log, (bind_returned _ _ _ _ _ (Hparse _)), !bind_log.
  match goal with
  | |- context [fetch_and_publish fuel e n d c l ?u ?w1] =>
    destruct (fetch_and_publish fuel e n d c l u w1) as [out w'] eqn:E
  end.
  destruct (fetch_events _ _ _ _ _ _ _ _ _ _ E) as [rest [Hrest _]].
  simpl snd. rewrite Hrest. apply in_or_app. right. left. reflexivity.
Qed.

(** X6.  The flag of the request URL is what Python prints for the
    value of ["No_deps"]: [0] when the key is absent, and [True] or
    [False], not [1] or [0], when the file has a JSON boolean. *)
Theorem no_deps_flag_in_url :
  forall fuel e n d c l packages_path kvs arch runtime packages w,
    env_config e packages_path = Parsed (VDict kvs) ->
    dict_get_or kvs "Arch" VNone = VStr arch ->
    dict_get_or kvs "Runtime" VNone = VStr runtime ->
    packages_text (dict_get_or kvs "Packages" VNone) = Some packages ->
    let url flag :=
      ("https://layerzip.higuchi.work/" ++ arch ++ "/" ++ runtime ++ "/"
         ++ packages ++ "?no-deps=" ++ flag)%string in
    let asks url :=
      In (EvGet url)
        (w_trace (snd (create_from_packages fuel e n d c l packages_path w))) in
    (dict_get kvs "No_deps" = None -> asks (url "0"))
    /\ (dict_get kvs "No_deps" = Some (VBool true) -> asks (url "True"))
    /\ (dict_get kvs "No_deps" = Some (VBool false) -> asks (url "False")).
Proof.
  intros fuel e n d c l packages_path kvs arch runtime packages w
    H Ha Hr Hp url asks.
  assert (Hs : is_str_or_list (dict_get_or kvs "Packages" VNone) = true).
  { destruct (dict_get_or kvs "Packages" VNone); try discriminate Hp;
      reflexivity. }
  assert (Hparse : forall v no_deps,
            dict_get_or kvs "No_deps" (VInt 0) = v ->
            as_int v = Some no_deps ->
            forall w0,
              _parse_packages_json e packages_path w0
              = (Ret (arch, runtime, packages, no_deps),
                 after w0 [EvOpen packages_path])).
  { intros v no_deps Hv Hn w0.
    rewrite (parse_packages_json_object _ _ _ _ H), Ha, Hr, Hs, Hv, Hn, Hp.
    reflexivity. }
  subst asks url. cbv beta. repeat split; intros Hn.
  - apply (from_packages_requests_url fuel e n d c l packages_path w
             arch runtime packages (IInt 0)).
    apply (Hparse (VInt 0)); [ | reflexivity ].
    unfold dict_get_or. rewrite Hn. reflexivity.
  - apply (from_packages_requests_url fuel e n d c l packages_path w
             arch runtime packages (IBool true)).
    apply (Hparse (VBool true)); [ | reflexivity ].
    unfold dict_get_or. rewrite Hn. reflexivity.
  - apply (from_packages_requests_url fuel e n d c l packages_path w
             arch runtime packages (IBool false)).
    apply (Hparse (VBool false)); [ | reflexivity ].
    unfold dict_get_or. rewrite Hn. reflexivity.
Qed.

Lemma no_deps_flag_in_url_witness :
  In (EvGet "https://layerzip.higuchi.work/x86_64/py38/numpy?no-deps=True")
    (w_trace
       (snd (create_from_packages 0
               (env_of [("packages.json",
                         VDict [("Arch", VStr "x86_64");
                                ("Runtime", VStr "py38");
                                ("Packages", VStr "numpy");
                                ("No_deps", VBool true)])] [])
               VNone VNone VNone VNone "packages.json" empty_world))).
Proof.
  destruct (no_deps_flag_in_url 0
              (env_of [("packages.json",
                        VDict [("Arch", VStr "x86_64");
                               ("Runtime", VStr "py38");
                               ("Packages", VStr "numpy");
                               ("No_deps", VBool true)])] [])
              VNone VNone VNone VNone "packages.json"
              [("Arch", VStr "x86_64"); ("Runtime", VStr "py38");
               ("Packages", VStr "numpy"); ("No_deps", VBool true)]
              "x86_64" "py38" "numpy" empty_world
              eq_refl eq_refl eq_refl eq_refl) as [_ [Htrue _]].
  exact (Htrue eq_refl).
Defined.

(** ** More on [create] *)

(** X7.  When exactly one of the two options is set and the layer file
    cannot be read as a JSON object, [create] raises the error of that
    read at once: the trace holds the three debug records and the
    opening of the layer file, so neither the packages file nor the
    source tree nor the network has been touched. *)
Theorem create_stops_at_layer_file :
  forall fuel e packages src wrap_dir1 wrap_dir2 layer_path w err,
    truthy packages <> truthy src ->
    config_error (env_config e layer_path) = Some err ->
    create fuel e packages src wrap_dir1 wrap_dir2 layer_path w
    = (Raise (PyError err),
       after w (option_logs packages src layer_path ++ [EvOpen layer_path])).
Proof.
  intros fuel e packages src wrap_dir1 wrap_dir2 layer_path w err Hne Herr.
  unfold create. rewrite !bind_log, !after_after. simpl app.
  assert (Hcheck : (truthy packages && truthy src = false)
                   /\ (negb (truthy packages) && negb (truthy src) = false)).
  { destruct (truthy packages), (truthy src); try (split; reflexivity);
      exfalso; apply Hne; reflexivity. }
  destruct Hcheck as [H1 H2]. rewrite H1, H2.
  unfold bind at 1, ret at 1.
  rewrite (bind_raised _ _ _ _ _ (layer_json_error _ _ _ _ Herr)).
  rewrite after_after. reflexivity.
Qed.

Lemma create_stops_at_layer_file_witness :
  create 0 quiet_env (Some "packages.json") None "python" "" "layer.json"
    empty_world
  = (Raise (PyError FileNotFoundError),
     after empty_world
       (option_logs (Some "packages.json") None "layer.json"
          ++ [EvOpen "layer.json"])).
Proof.
  apply create_stops_at_layer_file.
  - simpl. discriminate.
  - reflexivity.
Defined.

Lemma publishes_last_bind {A} e n d c l (m : M A) (k : A -> M unit) :
  emits_only (fun ev => is_publish ev = false) m ->
  (forall a, publishes_last e n d c l (k a)) ->
  publishes_last e n d c l (bind m k).
Proof.
  intros Hm Hk w w' H. unfold bind in H.
  destruct (m w) as [[a | x |] w1] eqn:E; try discriminate.
  destruct (Hm _ _ _ E) as [t1 [Ht1 F1]].
  destruct (Hk _ _ _ H) as [content [arn [t2 [Hpub [Ht2 F2]]]]].
  exists content, arn, (t1 ++ t2). repeat split.
  - exact Hpub.
  - rewrite Ht2, Ht1, <- !app_assoc. reflexivity.
  - apply Forall_app. split; assumption.
Qed.

Lemma publishes_last_create_layer e n d c l content :
  publishes_last e n d c l (create_layer e n d c l content).
Proof.
  intros w w' H. rewrite create_layer_run in H. cbv zeta in H.
  fold (layer_request n d c l content) in H.
  destruct (env_publish e (layer_request n d c l content)) as [arn |] eqn:E;
    [ | discriminate ].
  inversion H. subst. exists content, arn, []. repeat split.
  - exact E.
  - constructor.
Qed.

Lemma publishes_last_then_ret e n d c l (m : M unit) :
  publishes_last e n d c l m ->
  publishes_last e n d c l (bind m (fun _ => ret tt)).
Proof.
  intros Hm w w' H. unfold bind in H.
  destruct (m w) as [[[] | x |] w1] eqn:E; try discriminate.
  inversion H. subst. apply Hm, E.
Qed.

Lemma emits_ziparchive_no_publish e src wrap_dir1 wrap_dir2 :
  emits_only (fun ev => is_publish ev = false)
    (_create_ziparchive e src wrap_dir1 wrap_dir2).
Proof.
  unfold _create_ziparchive, copytree, make_archive, read_bytes, rmtree.
  emits; reflexivity.
Qed.

Lemma is_polling_not_publish url ev :
  is_polling url ev -> is_publish ev = false.
Proof. destruct ev; simpl; try reflexivity; intros []. Qed.

Lemma publishes_last_from_src e n d c l src wrap_dir1 wrap_dir2 :
  publishes_last e n d c l (create_from_src e n d c l src wrap_dir1 wrap_dir2).
Proof.
  unfold create_from_src.
  apply publishes_last_bind; [ apply emits_log; reflexivity | intros _ ].
  apply publishes_last_bind; [ apply emits_ziparchive_no_publish | ].
  intros zipfile. apply publishes_last_create_layer.
Qed.

Lemma publishes_last_fetch fuel e n d c l url :
  publishes_last e n d c l (fetch_and_publish fuel e n d c l url).
Proof.
  unfold fetch_and_publish.
  apply publishes_last_bind.
  { unfold get_pre_signedurl. emits; reflexivity. }
  intros pre. apply publishes_last_bind.
  { eapply emits_weaken; [ apply is_polling_not_publish | apply emits_wait ]. }
  intros r. apply publishes_last_bind.
  { unfold verify_put, py_int. emits. }
  intros _. apply publishes_last_create_layer.
Qed.

Lemma publishes_last_from_packages fuel e n d c l packages_path :
  publishes_last e n d c l (create_from_packages fuel e n d c l packages_path).
Proof.
  unfold create_from_packages.
  apply publishes_last_bind; [ apply emits_log; reflexivity | intros _ ].
  apply publishes_last_bind; [ apply emits_packages_json; reflexivity | ].
  intros [[[arch runtime] packages] no_deps].
  repeat (apply publishes_last_bind;
          [ apply emits_log; reflexivity | intros _ ]).
  apply publishes_last_fetch.
Qed.

Lemma layer_json_returned e layer_path w layer w' :
  _parse_create_layer_json e layer_path w = (Ret layer, w') ->
  exists kvs,
    env_config e layer_path = Parsed (VDict kvs)
    /\ layer = (dict_get_or kvs "LayerName" VNone,
                dict_get_or kvs "Description" VNone,
                dict_get_or kvs "CompatibleRuntimes" VNone,
                dict_get_or kvs "LicenseInfo" VNone)
    /\ w' = after w [EvOpen layer_path].
Proof.
  intros H.
  destruct (config_error (env_config e layer_path)) as [err |] eqn:E.
  - rewrite (layer_json_error _ _ _ _ E) in H. discriminate H.
  - destruct (env_config e layer_path) as [| | v] eqn:Hcfg;
      try discriminate E.
    destruct v; try discriminate E. exists kvs. split; [ reflexivity | ].
    unfold _parse_create_layer_json, bind in H.
    rewrite (json_load_parsed _ _ _ _ Hcfg) in H. simpl in H.
    inversion H. split; reflexivity.
Qed.

Lemma bind_returned_inv {A B} (m : M A) (k : A -> M B) w b w' :
  bind m k w = (Ret b, w') ->
  exists a w1, m w = (Ret a, w1) /\ k a w1 = (Ret b, w').
Proof.
  unfold bind. destruct (m w) as [[a | x |] w1]; try discriminate.
  intros H. exists a, w1. split; [ reflexivity | exact H ].
Qed.

(** X8.  When [create] returns, the last thing it did was one publish
    call that the service answered, and no other publish call came
    before it.  The name, description, runtimes and license of that call
    are the values of the layer file, [None] for each key the file does
    not have. *)
Theorem create_returns_after_one_publish :
  forall fuel e packages src wrap_dir1 wrap_dir2 layer_path w w',
    create fuel e packages src wrap_dir1 wrap_dir2 layer_path w = (Ret tt, w') ->
    exists kvs content arn before,
      env_config e layer_path = Parsed (VDict kvs)
      /\ let req :=
           layer_request
             (dict_get_or kvs "LayerName" VNone)
             (dict_get_or kvs "Description" VNone)
             (dict_get_or kvs "CompatibleRuntimes" VNone)
             (dict_get_or kvs "LicenseInfo" VNone) content in
         env_publish e req = Some arn
         /\ w_trace w' = w_trace w ++ before ++ published req arn
         /\ Forall (fun ev => is_publish ev = false) before.
Proof.
  intros fuel e packages src wrap_dir1 wrap_dir2 layer_path w w' H.
  unfold create in H. rewrite !bind_log, !after_after in H.
  change ([EvLog DEBUG [Lit "packages: "; Fmt (of_opt packages)]]
          ++ [EvLog DEBUG [Lit "src: "; Fmt (of_opt src)]]
          ++ [EvLog DEBUG [Lit "layer: "; Fmt (VStr layer_path)]])
    with (option_logs packages src layer_path) in H.
  apply bind_returned_inv in H. destruct H as [[] [w0 [Hcheck H]]].
  assert (Hone : truthy packages <> truthy src /\
                 w0 = after w (option_logs packages src layer_path)).
  { destruct (truthy packages), (truthy src); simpl in Hcheck;
      try discriminate Hcheck; inversion Hcheck;
      (split; [ discriminate | reflexivity ]). }
  destruct Hone as [Hne Hw0]. subst w0. clear Hcheck.
  apply bind_returned_inv in H. destruct H as [layer [w1 [Hlayer H]]].
  destruct (layer_json_returned _ _ _ _ _ Hlayer) as [kvs [Hcfg [Hl Hw1]]].
  subst layer w1. cbv beta iota in H.
  rewrite !bind_log, !after_after in H.
  assert (Hbody : exists content arn t,
            env_publish e
              (layer_request (dict_get_or kvs "LayerName" VNone)
                 (dict_get_or kvs "Description" VNone)
                 (dict_get_or kvs "CompatibleRuntimes" VNone)
                 (dict_get_or kvs "LicenseInfo" VNone) content) = Some arn
            /\ exists logs,
                 Forall (fun ev => is_publish ev = false) logs
                 /\ w_trace w'
                    = (w_trace w ++ logs) ++ t
                      ++ published
                           (layer_request (dict_get_or kvs "LayerName" VNone)
                              (dict_get_or kvs "Description" VNone)
                              (dict_get_or kvs "CompatibleRuntimes" VNone)
                              (dict_get_or kvs "LicenseInfo" VNone) content)
                           arn
            /\ Forall (fun ev => is_publish ev = false) t).
  { destruct (truthy src) eqn:Hs.
    - (* src only *)
      assert (Hp : truthy packages = false).
      { destruct (truthy packages); [ contradiction Hne | ]; reflexivity. }
      rewrite (if_set_unset packages _ Hp) in H.
      destruct src as [s |]; [ | discriminate Hs ].
      unfold if_set in H. rewrite Hs in H.
      destruct (publishes_last_then_ret _ _ _ _ _ _
                  (publishes_last_from_src _ _ _ _ _ _ _ _) _ _ H)
        as [content [arn [t [Hpub [Ht Ft]]]]].
      exists content, arn, t. split; [ exact Hpub | ].
      eexists. split; [ | split; [ exact Ht | exact Ft ] ].
      unfold option_logs. repeat constructor.
    - (* packages only *)
      assert (Hp : truthy packages = true).
      { destruct (truthy packages); [ reflexivity | contradiction Hne ];
          reflexivity. }
      rewrite (if_set_unset src _ Hs) in H.
      unfold bind at 1, ret at 1 in H.
      destruct packages as [s |]; [ | discriminate Hp ].
      unfold if_set in H. rewrite Hp in H.
      destruct (publishes_last_from_packages _ _ _ _ _ _ _ _ _ H)
        as [content [arn [t [Hpub [Ht Ft]]]]].
      exists content, arn, t. split; [ exact Hpub | ].
      eexists. split; [ | split; [ exact Ht | exact Ft ] ].
      unfold option_logs. repeat constructor. }
  destruct Hbody as [content [arn [t [Hpub [logs [Fl [Ht Ft]]]]]]].
  exists kvs, content, arn, (logs ++ t). split; [ exact Hcfg | ].
  cbv zeta. split; [ exact Hpub | ]. split.
  - rewrite Ht, <- !app_assoc. reflexivity.
  - apply Forall_app. split; assumption.
Qed.

Lemma create_returns_after_one_publish_witness :
  exists content arn before,
    env_publish env_remote
      (layer_request (VStr "numpy") (VStr "numpy for python3.8")
         (VList [VStr "python3.8"]) (VStr "BSD") content)
    = Some arn
    /\ w_trace
         (snd (create 0 env_remote None (Some "lib") "python" "" "layer.json"
                 (world_of lib_tree)))
       = before
         ++ published
              (layer_request (VStr "numpy") (VStr "numpy for python3.8")
                 (VList [VStr "python3.8"]) (VStr "BSD") content)
              arn.
Proof.
  assert (Hrun : create 0 env_remote None (Some "lib") "python" ""
                   "layer.json" (world_of lib_tree)
                 = (Ret tt,
                    snd (create 0 env_remote None (Some "lib") "python" ""
                           "layer.json" (world_of lib_tree))))
    by (vm_compute; reflexivity).
  destruct (create_returns_after_one_publish 0 env_remote None (Some "lib")
              "python" "" "layer.json" (world_of lib_tree) _ Hrun)
    as [kvs [content [arn [before [Hcfg [Hpub [Ht _]]]]]]].
  vm_compute in Hcfg. injection Hcfg as Hk. subst kvs.
  exists content, arn, before. split; [ exact Hpub | exact Ht ].
Defined.

(** ** More on the polling loop *)

(** X9.  The loop retries only on answers.  When a poll raises, after
    [k] answers that were not 200, the loop ends there with that
    exception: [k] retries are in the trace, then the request that
    failed, and there is no further request. *)
Theorem poll_error_ends_loop :
  forall e url k fuel elapsed w,
    (k < fuel)%nat ->
    still_building e url (w_requests w) k ->
    env_http e (w_requests w + k) url = NoAnswer ->
    wait_for_download fuel e url elapsed w
    = (Raise (PyError RequestException),
       requested w (S k) (retries url elapsed k ++ [EvGet url])).
Proof.
  intros e url k. induction k as [| k IH]; intros fuel elapsed w Hk Hb Hr.
  - destruct fuel as [| fuel]; [ lia | ].
    rewrite Nat.add_0_r in Hr. simpl. unfold bind, requests_get.
    rewrite Hr. f_equal. unfold requested. simpl. f_equal. lia.
  - destruct fuel as [| fuel]; [ lia | ].
    destruct (Hb 0%nat) as [r0 [Hr0 Hs0]]; [ lia | ].
    rewrite Nat.add_0_r in Hr0.
    rewrite (wait_turn _ _ _ _ _ _ Hr0 Hs0).
    rewrite (IH fuel (elapsed + 5) _).
    + rewrite requested_requested. reflexivity.
    + lia.
    + simpl. rewrite Nat.add_1_r. apply still_building_shift. exact Hb.
    + simpl. rewrite <- Hr. f_equal. lia.
Qed.

Lemma poll_error_ends_loop_witness :
  wait_for_download 5 (env_of [] [ready 403; ready 403])
    "https://bucket.s3.amazonaws.com/k" 0 empty_world
  = (Raise (PyError RequestException),
     requested empty_world 3
       (retries "https://bucket.s3.amazonaws.com/k" 0 2
          ++ [EvGet "https://bucket.s3.amazonaws.com/k"])).
Proof.
  apply (poll_error_ends_loop (env_of [] [ready 403; ready 403])
           "https://bucket.s3.amazonaws.com/k" 2 5 0 empty_world).
  - lia.
  - intros i Hi. exists (ready 403).
    destruct i as [| [| i]]; [ | | lia ]; (split; [ reflexivity | discriminate ]).
  - reflexivity.
Defined.

Lemma retries_log url k : forall elapsed i,
  (i < k)%nat ->
  nth_error (retries url elapsed k) (3 * i + 2)
  = Some (still_downloading (elapsed + 5 * (Z.of_nat i + 1))).
Proof.
  induction k as [| k IH]; intros elapsed i Hi; [ lia | ].
  destruct i as [| i].
  - simpl. replace (elapsed + 5 * (0 + 1)) with (elapsed + 5) by lia.
    reflexivity.
  - replace (3 * S i + 2)%nat with (3 + (3 * i + 2))%nat by lia.
    change (retries url elapsed (S k))
      with ([EvGet url; EvSleep 5; still_downloading (elapsed + 5)]
              ++ retries url (elapsed + 5) k).
    rewrite nth_error_app2; [ | simpl; lia ].
    replace (3 + (3 * i + 2) - List.length
               [EvGet url; EvSleep 5; still_downloading (elapsed + 5)])%nat
      with (3 * i + 2)%nat by (simpl; lia).
    rewrite IH; [ | lia ].
    replace (elapsed + 5 + 5 * (Z.of_nat i + 1))
      with (elapsed + 5 * (Z.of_nat (S i) + 1)) by lia.
    reflexivity.
Qed.

(** X10.  The elapsed time starts at zero and grows by five with each
    sleep: when the loop returns after [k] retries, the record logged
    by the [i]-th of them says [5 * i] seconds, and [k + 1] requests
    have been made. *)
Theorem elapsed_time_logged :
  forall e url k fuel w r,
    (k < fuel)%nat ->
    still_building e url (w_requests w) k ->
    env_http e (w_requests w + k) url = Answer r ->
    status_code r = 200 ->
    let w' := snd (wait_for_download fuel e url 0 w) in
    w_requests w' = (w_requests w + (k + 1))%nat
    /\ forall i,
         (i < k)%nat ->
         nth_error (w_trace w') (List.length (w_trace w) + (3 * i + 2))
         = Some (still_downloading (5 * (Z.of_nat i + 1))).
Proof.
  intros e url k fuel w r Hk Hb Hr Hs w'. subst w'.
  rewrite (wait_succeeds e url k fuel 0 w r Hk Hb Hr Hs). simpl snd. split.
  - simpl. lia.
  - intros i Hi. simpl w_trace.
    rewrite nth_error_app2; [ | lia ].
    replace (List.length (w_trace w) + (3 * i + 2) - List.length (w_trace w))%nat
      with (3 * i + 2)%nat by lia.
    rewrite nth_error_app1.
    + rewrite (retries_log url k 0 i Hi). reflexivity.
    + apply nth_error_Some. rewrite (retries_log url k 0 i Hi). discriminate.
Qed.

Lemma elapsed_time_logged_witness :
  nth_error
    (w_trace
       (snd (wait_for_download 5
               (env_of [] [ready 403; ready 403; built []])
               "https://bucket.s3.amazonaws.com/k" 0 empty_world)))
    5
  = Some (still_downloading 10).
Proof.
  destruct (elapsed_time_logged
              (env_of [] [ready 403; ready 403; built []])
              "https://bucket.s3.amazonaws.com/k" 2 5 empty_world (built []))
    as [_ Hlog].
  - lia.
  - intros i Hi. exists (ready 403).
    destruct i as [| [| i]]; [ | | lia ];
      (split; [ reflexivity | discriminate ]).
  - reflexivity.
  - reflexivity.
  - apply (Hlog 1%nat). lia.
Defined.

(** ** More on the pre-signed URL *)

(** X11.  A URL that does not have the expected shape is not refused;
    the split gives what is there.  With fewer than three slashes the
    key is what follows the last one, the whole URL when there is none;
    without a dot and a slash the bucket is the whole URL. *)
Theorem url_without_separators :
  (forall url, has_char "/" url = false -> s3_key url = url)
  /\ (forall a b,
        has_char "/" a = false -> has_char "/" b = false ->
        s3_key (a ++ "/" ++ b) = b)
  /\ (forall a b c,
        has_char "/" a = false -> has_char "/" b = false ->
        has_char "/" c = false ->
        s3_key (a ++ "/" ++ b ++ "/" ++ c) = c)
  /\ (forall url,
        has_char "." url = false -> has_char "/" url = false ->
        s3_bucket url = url).
Proof.
  repeat split.
  - intros url H. unfold s3_key, py_splitn.
    rewrite (split_go_char_whole _ _ _ _ H). reflexivity.
  - intros a b Ha Hb. unfold s3_key, py_splitn.
    change (a ++ "/" ++ b)%string with (a ++ String "/" b)%string.
    rewrite (split_go_char_cut _ _ _ _ _ Ha); [ | discriminate ].
    rewrite (split_go_char_whole _ _ _ _ Hb). reflexivity.
  - intros a b c Ha Hb Hc. unfold s3_key, py_splitn.
    change (a ++ "/" ++ b ++ "/" ++ c)%string
      with (a ++ String "/" (b ++ String "/" c))%string.
    rewrite (split_go_char_cut _ _ _ _ _ Ha); [ | discriminate ].
    rewrite (split_go_char_cut _ _ _ _ _ Hb); [ | discriminate ].
    rewrite (split_go_char_whole _ _ _ _ Hc). reflexivity.
  - intros url Hdot Hslash. unfold s3_bucket, py_split.
    rewrite (split_go_char_whole _ _ _ _ Hdot). simpl first_item.
    rewrite (split_go_double_whole "/" _ _ Hslash). reflexivity.
Qed.

Lemma url_without_separators_witness :
  s3_key "not a url" = "not a url"
  /\ s3_key "bucket/key" = "key"
  /\ s3_bucket "localhost" = "localhost".
Proof.
  destruct url_without_separators as [H0 [H1 [_ Hb]]].
  split; [ | split ].
  - exact (H0 "not a url" eq_refl).
  - exact (H1 "bucket" "key" eq_refl eq_refl).
  - exact (Hb "localhost" eq_refl eq_refl).
Defined.

(** ** More on [_create_ziparchive] *)

(** X12.  A source path that does not exist, or that is a file, makes
    [_create_ziparchive] raise before anything is written: the file
    tree is as it was, so no scratch directory is left behind. *)
Theorem create_ziparchive_bad_source :
  forall e src wrap_dir1 wrap_dir2 w,
    let copy_src_dir :=
      os_path_join (env_timestamp_hash e) ["rawlayer"; wrap_dir1; wrap_dir2] in
    (fs_lookup (w_fs w) (resolve (env_cwd e) src) = None ->
     _create_ziparchive e src wrap_dir1 wrap_dir2 w
     = (Raise (PyError FileNotFoundError),
        after w [EvCopytree src copy_src_dir]))
    /\ (forall readable data,
          fs_lookup (w_fs w) (resolve (env_cwd e) src)
          = Some (NFile readable data) ->
          _create_ziparchive e src wrap_dir1 wrap_dir2 w
          = (Raise (PyError NotADirectoryError),
             after w [EvCopytree src copy_src_dir])).
Proof.
  intros e src wrap_dir1 wrap_dir2 w copy_src_dir. subst copy_src_dir.
  unfold _create_ziparchive. cbv zeta. split.
  - intros H. apply bind_raised. unfold copytree.
    rewrite bind_emit. unfold bind at 1, get_fs at 1. rewrite !w_fs_after.
    rewrite H. reflexivity.
  - intros rd data H. apply bind_raised. unfold copytree.
    rewrite bind_emit. unfold bind at 1, get_fs at 1. rewrite !w_fs_after.
    rewrite H. reflexivity.
Qed.

Lemma create_ziparchive_bad_source_witness :
  _create_ziparchive quiet_env "nowhere" "python" "" (world_of lib_tree)
  = (Raise (PyError FileNotFoundError),
     after (world_of lib_tree)
       [EvCopytree "nowhere" "9f86d081884c7d65/rawlayer/python/"])
  /\ _create_ziparchive quiet_env "lib/a.py" "python" "" (world_of lib_tree)
     = (Raise (PyError NotADirectoryError),
        after (world_of lib_tree)
          [EvCopytree "lib/a.py" "9f86d081884c7d65/rawlayer/python/"]).
Proof.
  split.
  - exact (proj1 (create_ziparchive_bad_source quiet_env "nowhere" "python" ""
                    (world_of lib_tree)) eq_refl).
  - exact (proj2 (create_ziparchive_bad_source quiet_env "lib/a.py" "python" ""
                    (world_of lib_tree)) true [Byte.x61] eq_refl).
Defined.





(** ** An absolute wrap directory *)













(** ** [get_version] *)

Lemma starts_with_append p s : starts_with p (p ++ s) = true.
Proof.
  induction p as [| a p IH]; simpl; [ reflexivity | ].
  rewrite Ascii.eqb_refl, IH. reflexivity.
Qed.

(** Only the first characters of the text count. *)
Lemma starts_with_longer p : forall s t,
  (String.length p <= String.length s)%nat ->
  starts_with p (s ++ t) = starts_with p s.
Proof.
  induction p as [| a p IH]; intros s t Hlen; [ reflexivity | ].
  destruct s as [| b s]; simpl in *; [ lia | ].
  rewrite (IH s t) by lia. reflexivity.
Qed.

Lemma starts_with_split p : forall s,
  starts_with p s = true -> exists t, s = (p ++ t)%string.
Proof.
  induction p as [| a p IH]; intros s H; simpl in *.
  - exists s. reflexivity.
  - destruct s as [| b s]; [ discriminate H | ].
    apply andb_true_iff in H. destruct H as [Hab Hp].
    apply Ascii.eqb_eq in Hab. subst b.
    destruct (IH _ Hp) as [t Ht]. exists t. rewrite Ht. reflexivity.
Qed.

Lemma string_length_append (a b : string) :
  String.length (a ++ b) = (String.length a + String.length b)%nat.
Proof. induction a as [| x a IH]; simpl; [ | rewrite IH ]; reflexivity. Qed.

(** The literal part of a pattern consumes itself. *)
Lemma match_here_lits l r : forall s m,
  match_here r s = Some m ->
  exists pieces,
    List.length pieces = String.length l
    /\ match_here (lits l ++ r) (l ++ s) = Some (pieces ++ m).
Proof.
  induction l as [| c l IH]; intros s m H; simpl.
  - exists []. split; [ reflexivity | exact H ].
  - destruct (IH _ _ H) as [pieces [Hlen Hm]].
    exists (String c "" :: pieces). rewrite Ascii.eqb_refl, Hm.
    split; [ simpl; rewrite Hlen | ]; reflexivity.
Qed.

Lemma match_here_lits_inv l r : forall s m,
  match_here (lits l ++ r) s = Some m ->
  exists pieces t m',
    List.length pieces = String.length l
    /\ s = (l ++ t)%string /\ m = pieces ++ m'
    /\ match_here r t = Some m'.
Proof.
  induction l as [| c l IH]; intros s m H; simpl in *.
  - exists [], s, m. repeat split; [ exact H ].
  - destruct s as [| a s]; [ discriminate H | ].
    destruct (Ascii.eqb a c) eqn:Hac; [ | discriminate H ].
    apply Ascii.eqb_eq in Hac. subst a.
    destruct (match_here (lits l ++ r) s) as [m0 |] eqn:Hm0;
      [ | discriminate H ].
    injection H as H. subst m.
    destruct (IH _ _ Hm0) as [pieces [t [m' [Hlen [Hs [Hm Hr]]]]]].
    exists (String c "" :: pieces), t, m'. subst s m0.
    repeat split; [ simpl; rewrite Hlen; reflexivity | exact Hr ].
Qed.

Lemma match_here_lits_starts l r s m :
  match_here (lits l ++ r) s = Some m -> starts_with l s = true.
Proof.
  intros H. destruct (match_here_lits_inv _ _ _ _ H)
    as [pieces [t [m' [_ [Hs _]]]]].
  subst s. apply starts_with_append.
Qed.

Lemma match_here_no_prefix l r s :
  starts_with l s = false -> match_here (lits l ++ r) s = None.
Proof.
  intros H. destruct (match_here (lits l ++ r) s) as [m |] eqn:Hm;
    [ | reflexivity ].
  rewrite (match_here_lits_starts _ _ _ _ Hm) in H. discriminate H.
Qed.

(** A text without the literal part has no match. *)
Lemma search_no_prefix l r : forall s,
  contains l s = false -> search (lits l ++ r) s = None.
Proof.
  induction s as [| a s IH]; intros H; simpl in H;
    apply orb_false_iff in H; destruct H as [Hs Hrest];
    unfold search; fold search; rewrite (match_here_no_prefix _ _ _ Hs).
  - reflexivity.
  - apply IH. exact Hrest.
Qed.

(** The search goes past a text in which the literal part does not
    start. *)
Lemma search_skips l r l' : forall pre s,
  (String.length l <= S (String.length l'))%nat ->
  contains l (pre ++ l') = false ->
  search (lits l ++ r) (pre ++ l' ++ s) = search (lits l ++ r) (l' ++ s).
Proof.
  induction pre as [| a pre IH]; intros s Hlen H; [ reflexivity | ].
  simpl append in *. unfold contains in H; fold contains in H.
  apply orb_false_iff in H. destruct H as [Hs Hrest].
  unfold search; fold search.
  rewrite match_here_no_prefix.
  - apply IH; assumption.
  - change (String a (pre ++ l' ++ s))%string
      with (String a pre ++ (l' ++ s))%string.
    rewrite <- append_assoc, starts_with_longer; [ exact Hs | ].
    simpl. rewrite string_length_append. lia.
Qed.

(** A match is one at some place of the text. *)
Lemma search_found its : forall s m,
  search its s = Some m ->
  exists pre t, s = (pre ++ t)%string /\ match_here its t = Some m.
Proof.
  induction s as [| a s IH]; intros m H; unfold search in H; fold search in H.
  - destruct (match_here its "") as [m0 |] eqn:Hm; [ | discriminate H ].
    injection H as H. subst m0. exists "", "". split; [ reflexivity | exact Hm ].
  - destruct (match_here its (String a s)) as [m0 |] eqn:Hm.
    + injection H as H. subst m0. exists "", (String a s).
      split; [ reflexivity | exact Hm ].
    + destruct (IH _ H) as [pre [t [Hs Ht]]].
      exists (String a pre), t. subst s. split; [ reflexivity | exact Ht ].
Qed.

(** The repetition takes a whole run of the class when what follows
    the run is not in the class and is matched by the rest. *)
Lemma plus_go_run p k c t m : forall v,
  v <> "" -> all_in p v = true -> p c = false ->
  k (String c t) = Some m ->
  plus_go p k (v ++ String c t) = Some (v, m).
Proof.
  induction v as [| a v IH]; intros Hv Hall Hc Hk; [ contradiction Hv; reflexivity | ].
  simpl in Hall. apply andb_true_iff in Hall. destruct Hall as [Ha Hall].
  simpl. rewrite Ha. destruct v as [| b v].
  - simpl. rewrite Hc, Hk. reflexivity.
  - rewrite IH; [ reflexivity | discriminate | exact Hall | exact Hc | exact Hk ].
Qed.

(** What the repetition took is a run of the class, not empty, and the
    rest of the pattern matched what follows it. *)
Lemma plus_go_inv p k : forall s piece pieces,
  plus_go p k s = Some (piece, pieces) ->
  piece <> "" /\ all_in p piece = true
  /\ exists t, s = (piece ++ t)%string /\ k t = Some pieces.
Proof.
  induction s as [| a s IH]; intros piece pieces H; simpl in H;
    [ discriminate H | ].
  destruct (p a) eqn:Ha; [ | discriminate H ].
  destruct (plus_go p k s) as [[more pcs] |] eqn:Hgo.
  - injection H as Hp Hm. subst piece pieces.
    destruct (IH _ _ eq_refl) as [_ [Hall [t [Hs Hk]]]].
    split; [ discriminate | ]. split; [ simpl; rewrite Ha; exact Hall | ].
    exists t. subst s. split; [ reflexivity | exact Hk ].
  - destruct (k s) as [pcs |] eqn:Hk; [ | discriminate H ].
    injection H as Hp Hm. subst piece pieces.
    split; [ discriminate | ]. split; [ simpl; rewrite Ha; reflexivity | ].
    exists s. split; [ reflexivity | exact Hk ].
Qed.

Lemma match_here_class_inv p r s m :
  match_here (RClass p :: r) s = Some m ->
  exists a s' m',
    s = String a s' /\ p a = true /\ match_here r s' = Some m'
    /\ m = String a "" :: m'.
Proof.
  intros H. simpl in H. destruct s as [| a s']; [ discriminate H | ].
  destruct (p a) eqn:Hp; [ | discriminate H ].
  destruct (match_here r s') as [m' |] eqn:Hm; [ | discriminate H ].
  injection H as H. exists a, s', m'. subst m. repeat split; assumption.
Qed.

Lemma match_here_plus_inv p r s m :
  match_here (RPlus p :: r) s = Some m ->
  exists piece pieces,
    plus_go p (match_here r) s = Some (piece, pieces)
    /\ m = piece :: pieces.
Proof.
  intros H. simpl in H.
  destruct (plus_go p (match_here r) s) as [[piece pieces] |] eqn:Hgo;
    [ | discriminate H ].
  injection H as H. exists piece, pieces. subst m. split; reflexivity.
Qed.

Lemma quote_not_digit c : is_quote c = true -> is_digit_or_dot c = false.
Proof.
  unfold is_quote. intros H. apply orb_true_iff in H.
  destruct H as [H | H]; apply Ascii.eqb_eq in H; subst c; reflexivity.
Qed.

Lemma is_version_facts v :
  is_version v = true -> v <> "" /\ all_in is_digit_or_dot v = true.
Proof.
  unfold is_version. intros H. apply andb_true_iff in H.
  destruct H as [Hne Hall]. split; [ | exact Hall ].
  intros ->. discriminate Hne.
Qed.

Lemma nth_after {A} (xs : list A) : forall n ys d,
  List.length xs = n -> nth n (xs ++ ys) d = nth 0 ys d.
Proof.
  induction xs as [| x xs IH]; intros n ys d H; subst n;
    [ reflexivity | simpl; apply IH; reflexivity ].
Qed.

(** The pattern at the place of an assignment. *)
Lemma match_here_version q1 v q2 post :
  is_quote q1 = true -> is_quote q2 = true -> is_version v = true ->
  exists m,
    match_here VERSION_RE (version_line q1 v q2 ++ post) = Some m
    /\ group1 m = v.
Proof.
  intros Hq1 Hq2 Hv. destruct (is_version_facts _ Hv) as [Hne Hall].
  assert (Hrest : match_here
                    [RClass is_quote; RPlus is_digit_or_dot; RClass is_quote]
                    (String q1 (v ++ String q2 post))
                  = Some [String q1 ""; v; String q2 ""]).
  { simpl. rewrite Hq1.
    rewrite (plus_go_run _ _ q2 post [String q2 ""] v Hne Hall
               (quote_not_digit _ Hq2)); [ reflexivity | ].
    rewrite Hq2. reflexivity. }
  destruct (match_here_lits version_prefix _ _ _ Hrest) as [pieces [Hlen Hm]].
  exists (pieces ++ [String q1 ""; v; String q2 ""]). split.
  - unfold VERSION_RE, version_line. rewrite append_assoc.
    simpl append at 2. rewrite append_assoc. exact Hm.
  - unfold group1, version_group.
    change (pieces ++ [String q1 ""; v; String q2 ""])
      with (pieces ++ [String q1 ""] ++ [v; String q2 ""]).
    rewrite app_assoc. apply nth_after.
    rewrite length_app, Hlen. reflexivity.
Qed.

(** X15.  [get_version] returns the version of the first assignment to
    [__version__] in the text of [lamblayer/__init__.py], when that
    assignment has a version of digits and dots between two quote
    characters.  The two quotes need not be the same character, and
    what follows the closing quote is not looked at. *)
Theorem get_version_first_assignment :
  forall pre q1 v q2 post,
    contains version_prefix (pre ++ "__version__ =") = false ->
    is_quote q1 = true ->
    is_quote q2 = true ->
    is_version v = true ->
    get_version (Some (pre ++ version_line q1 v q2 ++ post)%string) = inr v.
Proof.
  intros pre q1 v q2 post Hpre Hq1 Hq2 Hv.
  destruct (match_here_version q1 v q2 post Hq1 Hq2 Hv) as [m [Hm Hg]].
  unfold get_version.
  assert (Hskip : forall rest,
             search VERSION_RE (pre ++ version_prefix ++ rest)
             = search VERSION_RE (version_prefix ++ rest)).
  { intros rest.
    assert (Hlen : (String.length version_prefix
                    <= S (String.length "__version__ ="))%nat)
      by (simpl; lia).
    exact (search_skips version_prefix _ "__version__ =" pre
             (" " ++ rest) Hlen Hpre). }
  unfold version_line in *. rewrite (append_assoc version_prefix) in *.
  rewrite Hskip.
  destruct (version_prefix ++ String q1 (v ++ String q2 "") ++ post)%string;
    unfold search; fold search; rewrite Hm, Hg; reflexivity.
Qed.

Lemma get_version_first_assignment_witness :
  get_version
    (Some ("__author__ = 'a'" ++ String "010" ""
           ++ version_line "'" "0.1.0" "034" ++ String "010" "x = 1")%string)
  = inr "0.1.0".
Proof.
  apply (get_version_first_assignment
           ("__author__ = 'a'" ++ String "010" "")%string "'" "0.1.0" "034"
           (String "010" "x = 1"));
    reflexivity.
Defined.

(** X16.  [get_version] has no default.  Whatever it returns is a
    version of digits and dots that stands between two quote characters
    right after [__version__ = ] somewhere in the text; on a text that
    has no such place it raises [AttributeError], and so it does on
    every text without [__version__ = ]. *)
Theorem get_version_sound :
  forall init,
    match get_version (Some init) with
    | inr v =>
      is_version v = true
      /\ exists pre q1 q2 post,
          init = (pre ++ version_line q1 v q2 ++ post)%string
          /\ is_quote q1 = true /\ is_quote q2 = true
    | inl err =>
      err = AttributeError
    end
    /\ (contains version_prefix init = false ->
        get_version (Some init) = inl AttributeError).
Proof.
  intros init. split.
  - unfold get_version.
    destruct (search VERSION_RE init) as [m |] eqn:Hs; [ | reflexivity ].
    destruct (search_found _ _ _ Hs) as [pre [t [Hinit Ht]]].
    unfold VERSION_RE in Ht.
    destruct (match_here_lits_inv _ _ _ _ Ht)
      as [pieces [t1 [m1 [Hlen [Ht1 [Hm Hm1]]]]]].
    destruct (match_here_class_inv _ _ _ _ Hm1)
      as [q1 [t2 [m2 [Hs1 [Hq1 [Hm2 Hm1']]]]]].
    destruct (match_here_plus_inv _ _ _ _ Hm2) as [piece [pcs [Hgo Hm2']]].
    destruct (plus_go_inv _ _ _ _ _ Hgo) as [Hne [Hall [t3 [Ht2 Hk]]]].
    destruct (match_here_class_inv _ _ _ _ Hk)
      as [q2 [post [m3 [Hs3 [Hq2 _]]]]].
    subst m1 m2 t1 t3.
    assert (Hg : group1 m = piece).
    { subst m. unfold group1, version_group.
      change (pieces ++ String q1 "" :: piece :: pcs)
        with (pieces ++ [String q1 ""] ++ piece :: pcs).
      rewrite app_assoc. apply nth_after.
      rewrite length_app, Hlen. reflexivity. }
    rewrite Hg. split.
    + unfold is_version. rewrite Hall.
      destruct piece; [ contradiction Hne; reflexivity | reflexivity ].
    + exists pre, q1, q2, post. subst init t t2.
      unfold version_line. rewrite !append_assoc. simpl.
      rewrite !append_assoc. simpl.
      repeat split; assumption.
  - intros H. unfold get_version, VERSION_RE.
    rewrite (search_no_prefix _ _ _ H). reflexivity.
Qed.

Lemma get_version_sound_witness :
  get_version (Some "version = '0.1.0'") = inl AttributeError.
Proof.
  apply (get_version_sound "version = '0.1.0'"). reflexivity.
Defined.
